(** * Trace capture and insight pipeline of chrome-devtools-mcp

    A shallow embedding of [src/trace-processing/parse.ts] and
    [src/tools/performance.ts].

    JavaScript numbers are IEEE-754 doubles and are modelled by Rocq's
    primitive floats; strings by [string]; byte buffers by [list byte].
    What lives outside the repository is gathered in one record of
    oracles, [Env].  The stateful collaborators are the DevTools trace
    engine, the browser page with its tracing controller, accessibility
    tree and element handles, the compressor, the file system, the timer
    and the logger: every command sent to one of them is appended to the
    [calls] history of the [World], and its oracle answers as a function
    of the history that precedes the command, so that these collaborators
    may be stateful in any deterministic way.  The two reads
    [context.getSelectedPage()] and [page.url()] answer from the history
    too and leave no entry in it.  The library functions ([TextDecoder],
    [JSON.parse], the two DevTools formatters, base64) are oracles of
    their arguments alone; the first four may return or throw, and none
    leaves an entry in the history. *)

From Stdlib Require Import PrimFloat FloatOps FloatAxioms SpecFloat.
From Stdlib Require Import String Ascii List Bool Arith Lia.
From Stdlib.Strings Require Import Byte.
Import ListNotations.

Set Warnings "-register-all".

Local Open Scope list_scope.
Local Open Scope string_scope.

(** ** JavaScript values *)

Module JS.

Definition number := float.
Definition bytes := list byte.

(** [a === b] on two numbers: IEEE equality ([NaN] differs from itself,
    [0] equals [-0]). *)
Definition strict_eq (a b : number) : bool := PrimFloat.eqb a b.

(** [a > b] on two numbers. *)
Definition gt (a b : number) : bool := PrimFloat.ltb b a.

(** Truthiness of a number: everything but [0], [-0] and [NaN]. *)
Definition truthy_number (x : number) : bool :=
  negb (PrimFloat.eqb x 0 || PrimFloat.is_nan x).

(** Truthiness of a string: everything but the empty string. *)
Definition truthy_string (s : string) : bool :=
  negb (String.eqb s "").

(** Truthiness of [T | undefined] for a [T] that is a number or a string. *)
Definition truthy_opt {A} (t : A -> bool) (o : option A) : bool :=
  match o with
  | Some a => t a
  | None => false
  end.

(** [a ?? b]. *)
Definition nullish {A} (o : option A) (d : A) : A :=
  match o with
  | Some a => a
  | None => d
  end.

(** A thrown value: an [Error] with its name and message, or any other
    value, kept as what [JSON.stringify] and [String] render it to. *)
Inductive Thrown :=
| ErrorObject (name message : string)
| ThrownValue (json str : string).

(** [e instanceof Error ? e.message : JSON.stringify(e)]. *)
Definition errorText (e : Thrown) : string :=
  match e with
  | ErrorObject _ m => m
  | ThrownValue j _ => j
  end.

(** [`${e}`]: [Error.prototype.toString] for an error. *)
Definition toString (e : Thrown) : string :=
  match e with
  | ErrorObject n m =>
      if String.eqb m "" then n
      else if String.eqb n "" then m
      else n ++ ": " ++ m
  | ThrownValue _ s => s
  end.

(** How a call completes: it returns, or it throws (for an async call:
    the promise is fulfilled or rejected). *)
Inductive Completion (A : Type) :=
| Normal (a : A)
| Throw (e : Thrown).
Arguments Normal {A} a.
Arguments Throw {A} e.

(** What [JSON.parse] returns. *)
Inductive JSON :=
| JNull
| JBool (b : bool)
| JNumber (n : number)
| JString (s : string)
| JArray (items : list JSON)
| JObject (fields : list (string * JSON)).

(** First binding of a key in an association list. *)
Fixpoint assoc {V} (k : string) (l : list (string * V)) : option V :=
  match l with
  | [] => None
  | (k', v) :: r => if String.eqb k k' then Some v else assoc k r
  end.

(** The property names every plain object inherits from
    [Object.prototype]. *)
Definition Object_prototype_names : list string :=
  [ "constructor"; "__defineGetter__"; "__defineSetter__";
    "hasOwnProperty"; "__lookupGetter__"; "__lookupSetter__";
    "isPrototypeOf"; "propertyIsEnumerable"; "toString"; "valueOf";
    "__proto__"; "toLocaleString" ].

Definition inherited (name : string) : bool :=
  existsb (String.eqb name) Object_prototype_names.

End JS.
Import JS.

(** ** The data the trace engine hands out *)

Module DevTools.

(** One subpart of the LCP breakdown; [range] is in microseconds. *)
Record Subpart := { range : number }.

Record Subparts := {
  ttfb : option Subpart;
  loadDelay : option Subpart;
  loadDuration : option Subpart;
  renderDelay : option Subpart
}.

(** The chain [lcpEvent?.args?.data?.nodeId]. *)
Record LCPEventData := { nodeId : option number }.
Record LCPEventArgs := { data : option LCPEventData }.
Record LCPEvent := { args : option LCPEventArgs }.

(** An insight model object.  Only the fields this code reads are kept;
    each of them may be missing (an insight other than the LCP breakdown
    has none of the last three). *)
Record InsightModel := {
  insightKey : string;
  lcpEvent : option LCPEvent;
  subparts : option Subparts;
  lcpMs : option number
}.

(** The [model] of an insight set: a plain object from insight name to
    insight model.  [own] lists its own properties; a property may hold
    [null]/[undefined] ([None]).  Being a plain object, it also inherits
    the members of [Object.prototype]. *)
Record ModelObject := { own : list (string * option InsightModel) }.

Record InsightSet := { model : ModelObject }.

(** [TraceInsightSets]: a [Map] from insight-set id to insight set, in
    insertion order. *)
Definition TraceInsightSets := list (string * InsightSet).

(** [Map.prototype.get]. *)
Definition Map_get (m : TraceInsightSets) (id : string) : option InsightSet :=
  assoc id m.

(** [Array.from(m.keys())]. *)
Definition Map_keys (m : TraceInsightSets) : list string := map fst m.

(** The [args] of a screenshot event: a legacy [snapshot] or a [dataUri]. *)
Record ScreenshotArgs := {
  snapshot : option string;
  dataUri : option string
}.

Record ScreenshotEvent := { screenshot_args : ScreenshotArgs }.

Record LayoutShiftArgsData := { weighted_score_delta : option number }.

(** A synthetic layout shift event: [ts], [args.data] and
    [parsedData.screenshots]. *)
Record LayoutShiftEvent := {
  ts : number;
  args_data : option LayoutShiftArgsData;
  screenshots_before : option ScreenshotEvent;
  screenshots_after : option ScreenshotEvent
}.

Record Cluster := { events : list LayoutShiftEvent }.

(** The parsed trace, as far as this code looks into it:
    [parsedTrace.insights] and [parsedTrace.data.LayoutShifts.clusters];
    [label] stands for everything else. *)
Record ParsedTrace := {
  label : string;
  parsed_insights : option TraceInsightSets;
  LayoutShifts_clusters : list Cluster
}.

End DevTools.

(** A node of the accessibility snapshot ([SerializedAXNode]);
    [backendNodeId] is present at runtime on some nodes only. *)
Inductive AXNode :=
| AX (role : string) (backendNodeId : option number)
     (children : option (list AXNode)).

(** An element handle. *)
Record Handle := { handle_id : nat }.

(** ** Collaborators *)

(** The commands sent to the stateful collaborators. *)
Inductive Call :=
| EngineReset
| EngineParse (events : option JSON)
| EngineParsedTrace
| Logger (line : string)
| PageGoto (url : string) (waitUntil : list string)
| TracingStart (categories : list string)
| TracingStop
| Gzip (data : bytes)
| SaveFile (data : bytes) (path : string)
| SetTimeout (ms : number)
| AccessibilitySnapshot (includeIframes : bool)
| ElementHandle (node : AXNode)
| HandleScreenshot (h : Handle)
| HandleDispose (h : Handle).

Definition is_engine_call (c : Call) : bool :=
  match c with
  | EngineReset | EngineParse _ | EngineParsedTrace => true
  | _ => false
  end.

(** A value read from an insight-set model by name: an insight model, a
    nullish value, or a member inherited from [Object.prototype]. *)
Inductive PropValue :=
| PInsight (m : DevTools.InsightModel)
| PNullish
| PBuiltin (name : string).

Definition truthy_prop (v : PropValue) : bool :=
  match v with
  | PInsight _ | PBuiltin _ => true
  | PNullish => false
  end.

(** The oracles.  Those of stateful collaborators take the history of the
    calls made before. *)
Record Env := {
  TextDecoder_decode : bytes -> Completion string;
  JSON_parse : string -> Completion JSON;
  engine_resetProcessor : list Call -> Completion unit;
  engine_parse : option JSON -> list Call -> Completion unit;
  engine_parsedTrace : list Call -> Completion (option DevTools.ParsedTrace);
  formatTraceSummary : DevTools.ParsedTrace -> Completion string;
  formatInsight : DevTools.ParsedTrace -> PropValue -> Completion string;
  callFrameDataFormatDescription : string;
  networkDataFormatDescription : string;
  context_getSelectedPage : list Call -> Completion unit;
  page_url : list Call -> string;
  page_goto : string -> list Call -> Completion unit;
  tracing_start : list string -> list Call -> Completion unit;
  tracing_stop : list Call -> Completion (option bytes);
  zlib_gzip : bytes -> list Call -> Completion bytes;
  context_saveFile : bytes -> string -> list Call -> Completion string;
  accessibility_snapshot : list Call -> Completion (option AXNode);
  node_elementHandle : AXNode -> list Call -> Completion (option Handle);
  handle_screenshot : Handle -> list Call -> Completion bytes;
  handle_dispose : Handle -> list Call -> Completion unit;
  base64 : bytes -> string
}.

(** ** Results of the trace adapter *)

Record TraceResult := {
  parsedTrace : DevTools.ParsedTrace;
  insights : option DevTools.TraceInsightSets
}.

(** [TraceResult | TraceParseError]; [traceResultIsSuccess] tells the two
    apart by the presence of [parsedTrace]. *)
Inductive ParseOutcome :=
| Success (result : TraceResult)
| ParseError (error : string).

Definition traceResultIsSuccess (x : ParseOutcome) : bool :=
  match x with
  | Success _ => true
  | ParseError _ => false
  end.

(** ** State and the monad of the handlers *)

(** The state the code reads and writes: the history of collaborator
    calls, the recording flag and the recorded traces of the context, and
    the lines of the response. *)
Record World := {
  calls : list Call;
  isRunningPerformanceTrace : bool;
  recordedTraces : list TraceResult;
  responseLines : list string
}.

Definition M (A : Type) : Type := World -> Completion A * World.

Definition ret {A} (a : A) : M A := fun w => (Normal a, w).

Definition bind {A B} (m : M A) (k : A -> M B) : M B :=
  fun w =>
    match m w with
    | (Normal a, w') => k a w'
    | (Throw e, w') => (Throw e, w')
    end.

Notation "x <- m ;; k" := (bind m (fun x => k))
  (at level 61, m at next level, right associativity).
Notation "m ;;; k" := (bind m (fun _ => k))
  (at level 61, right associativity).

(** [try { body } catch (e) { handler e }]. *)
Definition try_catch {A} (body : M A) (handler : Thrown -> M A) : M A :=
  fun w =>
    match body w with
    | (Normal a, w') => (Normal a, w')
    | (Throw e, w') => handler e w'
    end.

(** [try { body } finally { fin }]: [fin] runs however [body] completes;
    if [fin] throws, its exception replaces the completion of [body]. *)
Definition try_finally {A} (body : M A) (fin : M unit) : M A :=
  fun w =>
    match body w with
    | (c, w') =>
        match fin w' with
        | (Normal _, w'') => (c, w'')
        | (Throw e, w'') => (Throw e, w'')
        end
    end.

(** A call to a collaborator: the oracle answers from the history, and the
    call is appended to it. *)
Definition call {A} (c : Call) (oracle : list Call -> Completion A) : M A :=
  fun w =>
    (oracle (calls w),
     {| calls := (calls w ++ [c])%list;
        isRunningPerformanceTrace := isRunningPerformanceTrace w;
        recordedTraces := recordedTraces w;
        responseLines := responseLines w |}).

Definition logger (line : string) : M unit :=
  call (Logger line) (fun _ => Normal tt).

(** [response.appendResponseLine]. *)
Definition appendResponseLine (line : string) : M unit :=
  fun w =>
    (Normal tt,
     {| calls := calls w;
        isRunningPerformanceTrace := isRunningPerformanceTrace w;
        recordedTraces := recordedTraces w;
        responseLines := (responseLines w ++ [line])%list |}).

(** [context.isRunningPerformanceTrace()]. *)
Definition context_isRunningPerformanceTrace : M bool :=
  fun w => (Normal (isRunningPerformanceTrace w), w).

(** [context.setIsRunningPerformanceTrace]. *)
Definition context_setIsRunningPerformanceTrace (b : bool) : M unit :=
  fun w =>
    (Normal tt,
     {| calls := calls w;
        isRunningPerformanceTrace := b;
        recordedTraces := recordedTraces w;
        responseLines := responseLines w |}).

(** [context.storeTraceRecording]. *)
Definition context_storeTraceRecording (r : TraceResult) : M unit :=
  fun w =>
    (Normal tt,
     {| calls := calls w;
        isRunningPerformanceTrace := isRunningPerformanceTrace w;
        recordedTraces := (recordedTraces w ++ [r])%list;
        responseLines := responseLines w |}).

(** Lifting a pure collaborator's completion. *)
Definition lift {A} (c : Completion A) : M A := fun w => (c, w).

(** [context.getSelectedPage()] and [page.url()]: reads that leave no
    trace in the history. *)
Definition context_getSelectedPage_ (env : Env) : M unit :=
  fun w => (context_getSelectedPage env (calls w), w).

Definition page_url_ (env : Env) : M string :=
  fun w => (Normal (page_url env (calls w)), w).

(** ** [src/trace-processing/parse.ts] *)

Definition nl : string := String (ascii_of_nat 10) EmptyString.

(** The double quote character. *)
Definition dquote : string := String (ascii_of_nat 34) EmptyString.

(** [Array.isArray(data) ? data : data.traceEvents].  [undefined] is
    [None]; reading a property of [null] throws a [TypeError]. *)
Definition traceEvents_of (d : JSON) : Completion (option JSON) :=
  match d with
  | JArray _ => Normal (Some d)
  | JObject fields => Normal (assoc "traceEvents" fields)
  | JNull =>
      Throw (ErrorObject "TypeError"
               "Cannot read properties of null (reading 'traceEvents')")
  | JBool _ | JNumber _ | JString _ => Normal None
  end.

Definition parseRawTraceBuffer (env : Env) (buffer : option bytes)
  : M ParseOutcome :=
  call EngineReset (engine_resetProcessor env) ;;;
  match buffer with
  | None => ret (ParseError "No buffer was provided.")
  | Some b =>
      asString <- lift (TextDecoder_decode env b) ;;
      if negb (truthy_string asString) then
        ret (ParseError "Decoding the trace buffer returned an empty string.")
      else
        try_catch
          (data <- lift (JSON_parse env asString) ;;
           events <- lift (traceEvents_of data) ;;
           call (EngineParse events) (engine_parse env events) ;;;
           parsedTrace <- call EngineParsedTrace (engine_parsedTrace env) ;;
           match parsedTrace with
           | None =>
               ret (ParseError
                      "No parsed trace was returned from the trace engine.")
           | Some pt =>
               ret (Success {| parsedTrace := pt;
                               insights := DevTools.parsed_insights pt |})
           end)
          (fun e =>
             let errorText := errorText e in
             logger ("Unexpected error parsing trace: " ++ errorText) ;;;
             ret (ParseError errorText))
  end.

Definition extraFormatDescriptions (env : Env) : string :=
  "Information on performance traces may contain main thread activity represented as call frames and network requests."
  ++ nl ++ nl ++ callFrameDataFormatDescription env
  ++ nl ++ nl ++ networkDataFormatDescription env.

Definition getTraceSummary (env : Env) (result : TraceResult)
  : Completion string :=
  match formatTraceSummary env (parsedTrace result) with
  | Normal summaryText =>
      Normal ("## Summary of Performance trace findings:" ++ nl
              ++ summaryText ++ nl ++ nl
              ++ "## Details on call tree & network request formats:" ++ nl
              ++ extraFormatDescriptions env)
  | Throw e => Throw e
  end.

Inductive InsightOutput :=
| output (text : string)
| error (text : string).

(** [name in o] for a plain object: own properties, then those of
    [Object.prototype]. *)
Definition has_property (o : DevTools.ModelObject) (name : string) : bool :=
  existsb (String.eqb name) (map fst (DevTools.own o)) || inherited name.

(** [o[name]] for a plain object. *)
Definition get_property (o : DevTools.ModelObject) (name : string)
  : PropValue :=
  match assoc name (DevTools.own o) with
  | Some (Some m) => PInsight m
  | Some None => PNullish
  | None => if inherited name then PBuiltin name else PNullish
  end.

Definition getInsightOutput (env : Env) (result : TraceResult)
    (insightSetId insightName : string) : Completion InsightOutput :=
  match insights result with
  | None =>
      Normal (error "No Performance insights are available for this trace.")
  | Some sets =>
      match DevTools.Map_get sets insightSetId with
      | None =>
          Normal (error ("No Performance Insights for the given insight set id. Only use ids given in the "
                         ++ dquote ++ "Available insight sets" ++ dquote
                         ++ " list."))
      | Some insightSet =>
          let matchingInsight :=
            if has_property (DevTools.model insightSet) insightName
            then get_property (DevTools.model insightSet) insightName
            else PNullish in
          if negb (truthy_prop matchingInsight) then
            Normal (error ("No Insight with the name " ++ insightName
                           ++ " found. Double check the name you provided is accurate and try again."))
          else
            match formatInsight env (parsedTrace result) matchingInsight with
            | Normal text => Normal (output text)
            | Throw e => Throw e
            end
      end
  end.

Record LCPPhase := { name : string; durationMs : number }.

Record LCPBreakdownData := {
  lcpMs : number;
  backendNodeId : option number;
  phases : list LCPPhase
}.

Definition toMs (micro : number) : number := (micro / 1000)%float.

(** [if (s.x) { phases.push({name, durationMs: toMs(s.x.range)}) }]. *)
Definition push_phase (phases : list LCPPhase) (name : string)
    (s : option DevTools.Subpart) : list LCPPhase :=
  match s with
  | Some p =>
      (phases ++ [{| name := name; durationMs := toMs (DevTools.range p) |}])%list
  | None => phases
  end.

(** [insightSet.model.LCPBreakdown]; the name is not one of
    [Object.prototype], so the read finds an own property or nothing. *)
Definition model_LCPBreakdown (o : DevTools.ModelObject)
  : option DevTools.InsightModel :=
  match get_property o "LCPBreakdown" with
  | PInsight m => Some m
  | PNullish | PBuiltin _ => None
  end.

(** [lcpEvent?.args?.data?.nodeId]. *)
Definition lcpEvent_nodeId (e : option DevTools.LCPEvent) : option number :=
  match e with
  | Some ev =>
      match DevTools.args ev with
      | Some a =>
          match DevTools.data a with
          | Some d => DevTools.nodeId d
          | None => None
          end
      | None => None
      end
  | None => None
  end.

Definition getLCPBreakdownData (result : TraceResult) (insightSetId : string)
  : option LCPBreakdownData :=
  match insights result with
  | None => None
  | Some sets =>
      match DevTools.Map_get sets insightSetId with
      | None => None
      | Some insightSet =>
          match model_LCPBreakdown (DevTools.model insightSet) with
          | None => None
          | Some lcpInsight =>
              let backendNodeId :=
                lcpEvent_nodeId (DevTools.lcpEvent lcpInsight) in
              let phases :=
                match DevTools.subparts lcpInsight with
                | Some s =>
                    let p0 := push_phase [] "TTFB" (DevTools.ttfb s) in
                    let p1 := push_phase p0 "Load Delay" (DevTools.loadDelay s) in
                    let p2 :=
                      push_phase p1 "Load Duration" (DevTools.loadDuration s) in
                    push_phase p2 "Render Delay" (DevTools.renderDelay s)
                | None => []
                end in
              Some {| lcpMs := nullish (DevTools.lcpMs lcpInsight) 0%float;
                      backendNodeId := backendNodeId;
                      phases := phases |}
          end
      end
  end.

Record LayoutShiftImages := {
  before : option string;
  after : option string
}.

Record LayoutShiftData := {
  ts : number;
  score : number;
  images : LayoutShiftImages
}.

(** ['snapshot' in args ? args.snapshot : args.dataUri], for a screenshot
    that is there. *)
Definition screenshot_image (s : option DevTools.ScreenshotEvent)
  : option string :=
  match s with
  | Some ev =>
      let a := DevTools.screenshot_args ev in
      match DevTools.snapshot a with
      | Some img => Some img
      | None => DevTools.dataUri a
      end
  | None => None
  end.

Definition layoutShift_of (event : DevTools.LayoutShiftEvent)
  : LayoutShiftData :=
  {| ts := DevTools.ts event;
     score :=
       nullish
         (match DevTools.args_data event with
          | Some d => DevTools.weighted_score_delta d
          | None => None
          end) 0%float;
     images :=
       {| before := screenshot_image (DevTools.screenshots_before event);
          after := screenshot_image (DevTools.screenshots_after event) |} |}.

(** The two nested loops push one entry per event, cluster after
    cluster. *)
Fixpoint getLayoutShifts_clusters (clusters : list DevTools.Cluster)
    (layoutShifts : list LayoutShiftData) : list LayoutShiftData :=
  match clusters with
  | [] => layoutShifts
  | cluster :: rest =>
      getLayoutShifts_clusters rest
        (fold_left (fun acc event => (acc ++ [layoutShift_of event])%list)
           (DevTools.events cluster) layoutShifts)
  end.

Definition getLayoutShifts (result : TraceResult) : list LayoutShiftData :=
  getLayoutShifts_clusters
    (DevTools.LayoutShifts_clusters (parsedTrace result)) [].

Definition getLayoutShiftImages (result : TraceResult) (timestamp : number)
  : option LayoutShiftImages :=
  let shifts := getLayoutShifts result in
  match find (fun s => strict_eq (ts s) timestamp) shifts with
  | Some m => Some (images m)
  | None => None
  end.

(** ** [src/tools/performance.ts] *)

(** [s.endsWith(suffix)]. *)
Definition endsWith (s suffix : string) : bool :=
  (String.length suffix <=? String.length s)%nat
  && String.eqb
       (substring (String.length s - String.length suffix)
          (String.length suffix) s)
       suffix.

Definition categories : list string :=
  [ "-*";
    "blink.console";
    "blink.user_timing";
    "devtools.timeline";
    "disabled-by-default-devtools.screenshot";
    "disabled-by-default-devtools.timeline";
    "disabled-by-default-devtools.timeline.invalidationTracking";
    "disabled-by-default-devtools.timeline.frame";
    "disabled-by-default-devtools.timeline.stack";
    "disabled-by-default-v8.cpu_profiler";
    "disabled-by-default-v8.cpu_profiler.hires";
    "latencyInfo";
    "loading";
    "disabled-by-default-lighthouse";
    "v8.execute";
    "v8" ].

Definition already_running_message : string :=
  "Error: a performance trace is already running. Use performance_stop_trace to stop it. Only one trace can be running at any given time.".

Definition stopTracingAndAppendOutput (env : Env) (filePath : option string)
  : M unit :=
  try_finally
    (try_catch
       (traceEventsBuffer <- call TracingStop (tracing_stop env) ;;
        match filePath, traceEventsBuffer with
        | Some path, Some buffer =>
            if truthy_string path then
              dataToWrite <-
                (if endsWith path ".gz"
                 then call (Gzip buffer) (zlib_gzip env buffer)
                 else ret buffer) ;;
              file <- call (SaveFile dataToWrite path)
                        (context_saveFile env dataToWrite path) ;;
              appendResponseLine
                ("The raw trace data was saved to " ++ file ++ ".")
            else ret tt
        | _, _ => ret tt
        end ;;;
        result <- parseRawTraceBuffer env traceEventsBuffer ;;
        appendResponseLine "The performance trace has been stopped." ;;;
        match result with
        | Success r =>
            context_storeTraceRecording r ;;;
            traceSummaryText <- lift (getTraceSummary env r) ;;
            appendResponseLine traceSummaryText
        | ParseError err =>
            appendResponseLine
              "There was an unexpected error parsing the trace:" ;;;
            appendResponseLine err
        end)
       (fun e =>
          let errorText := errorText e in
          logger ("Error stopping performance trace: " ++ errorText) ;;;
          appendResponseLine
            "An error occurred generating the response for this trace:" ;;;
          appendResponseLine errorText))
    (context_setIsRunningPerformanceTrace false).

Record StartTraceParams := {
  reload : bool;
  autoStop : bool;
  filePath : option string
}.

(** The handler of [performance_start_trace], from the statement that
    follows the guard on. *)
Definition startRecording (env : Env) (params : StartTraceParams) : M unit :=
  context_setIsRunningPerformanceTrace true ;;;
  context_getSelectedPage_ env ;;;
  pageUrlForTracing <- page_url_ env ;;
  (if reload params
   then call (PageGoto "about:blank" ["networkidle0"])
          (page_goto env "about:blank")
   else ret tt) ;;;
  call (TracingStart categories) (tracing_start env categories) ;;;
  (if reload params
   then call (PageGoto pageUrlForTracing ["load"])
          (page_goto env pageUrlForTracing)
   else ret tt) ;;;
  if autoStop params then
    call (SetTimeout 5000%float) (fun _ => Normal tt) ;;;
    stopTracingAndAppendOutput env (filePath params)
  else
    appendResponseLine
      "The performance trace is being recorded. Use performance_stop_trace to stop it.".

(** The handler of [performance_start_trace]. *)
Definition startTrace (env : Env) (params : StartTraceParams) : M unit :=
  running <- context_isRunningPerformanceTrace ;;
  if running then appendResponseLine already_running_message
  else startRecording env params.

(** The handler of [performance_stop_trace]. *)
Definition stopTrace (env : Env) (filePath : option string) : M unit :=
  running <- context_isRunningPerformanceTrace ;;
  if negb running then ret tt
  else
    context_getSelectedPage_ env ;;;
    stopTracingAndAppendOutput env filePath.

(** Depth-first search of the accessibility tree; the inner loop runs
    over the children and stops at the first child that yields a node. *)
Fixpoint findAXNode (node : AXNode) (target : number) : option AXNode :=
  match node with
  | AX _ id children =>
      if match id with
         | Some i => strict_eq i target
         | None => false
         end
      then Some node
      else
        match children with
        | Some cs =>
            (fix loop (l : list AXNode) : option AXNode :=
               match l with
               | [] => None
               | child :: rest =>
                   match findAXNode child target with
                   | Some found => Some found
                   | None => loop rest
                   end
               end) cs
        | None => None
        end
  end.

Record LCPDataWithScreenshot := {
  lcpData : LCPBreakdownData;
  screenshot : option string
}.

(** The loop [for (i = ids.length - 1; i >= 0; i--)] of
    [getLCPDataWithScreenshot], over the ids from the last to the first. *)
Fixpoint lastInsightSetWithLCP (lastRecording : TraceResult)
    (ids_from_last : list string) : option string :=
  match ids_from_last with
  | [] => None
  | id :: rest =>
      match getLCPBreakdownData lastRecording id with
      | Some lcpData =>
          if gt (lcpMs lcpData) 0%float then Some id
          else lastInsightSetWithLCP lastRecording rest
      | None => lastInsightSetWithLCP lastRecording rest
      end
  end.

Definition finalInsightSetId (lastRecording : TraceResult) : option string :=
  match insights lastRecording with
  | Some sets =>
      lastInsightSetWithLCP lastRecording (rev (DevTools.Map_keys sets))
  | None => None
  end.

Definition screenshot_error_line (e : Thrown) : string :=
  "Error highlighting/screenshotting LCP element: " ++ toString e.

(** The guarded block that fills [screenshot].  The variable is assigned
    before [handle.dispose()] is awaited, so an exception of [dispose] is
    logged and the screenshot is kept: that is the inner handler. *)
Definition takeScreenshot (env : Env) (target : number) : M (option string) :=
  context_getSelectedPage_ env ;;;
  try_catch
    (root <- call (AccessibilitySnapshot true) (accessibility_snapshot env) ;;
     match root with
     | Some r =>
         match findAXNode r target with
         | Some node =>
             handle <- call (ElementHandle node)
                         (node_elementHandle env node) ;;
             match handle with
             | Some h =>
                 screenshotBuffer <- call (HandleScreenshot h)
                                       (handle_screenshot env h) ;;
                 let screenshot := Some (base64 env screenshotBuffer) in
                 try_catch
                   (call (HandleDispose h) (handle_dispose env h) ;;;
                    ret screenshot)
                   (fun e =>
                      logger (screenshot_error_line e) ;;; ret screenshot)
             | None => ret None
             end
         | None => ret None
         end
     | None => ret None
     end)
    (fun e => logger (screenshot_error_line e) ;;; ret None).

Definition getLCPDataWithScreenshot (env : Env) (lastRecording : TraceResult)
  : M (option LCPDataWithScreenshot) :=
  let finalInsightSetId := finalInsightSetId lastRecording in
  if negb (truthy_opt truthy_string finalInsightSetId) then ret None
  else
    match finalInsightSetId with
    | None => ret None
    | Some id =>
        match getLCPBreakdownData lastRecording id with
        | None => ret None
        | Some lcpData =>
            screenshot <-
              (if truthy_opt truthy_number (backendNodeId lcpData)
               then
                 match backendNodeId lcpData with
                 | Some target => takeScreenshot env target
                 | None => ret None
                 end
               else ret None) ;;
            ret (Some {| lcpData := lcpData; screenshot := screenshot |})
        end
    end.

(** [context.recordedTraces().at(-1)]. *)
Definition context_lastRecording : M (option TraceResult) :=
  fun w => (Normal (last (map Some (recordedTraces w)) None), w).

Definition no_recording_message : string :=
  "No recorded traces found. Record a performance trace so you have Insights to analyze.".

Definition lcp_hint_line : string :=
  nl ++ "To see a detailed visual breakdown of LCP phases and the LCP element, call `performance_show_lcp_breakdown`.".

(** The handler of [performance_analyze_insight]. *)
Definition analyzeInsight (env : Env) (insightSetId insightName : string)
  : M unit :=
  lastRecording <- context_lastRecording ;;
  match lastRecording with
  | None => appendResponseLine no_recording_message
  | Some recording =>
      insightOutput <-
        lift (getInsightOutput env recording insightSetId insightName) ;;
      match insightOutput with
      | error text => appendResponseLine text
      | output text =>
          appendResponseLine text ;;;
          appendResponseLine lcp_hint_line
      end
  end.

(** The handler of [performance_show_lcp_breakdown];
    [stringify x] stands for [JSON.stringify({lcpData: x}, null, 2)]. *)
Definition showLCPBreakdown (env : Env)
    (stringify : LCPDataWithScreenshot -> string) : M unit :=
  lastRecording <- context_lastRecording ;;
  match lastRecording with
  | None => appendResponseLine no_recording_message
  | Some recording =>
      lcpDataWithScreenshot <- getLCPDataWithScreenshot env recording ;;
      match lcpDataWithScreenshot with
      | None =>
          appendResponseLine "No LCP data found in the current recording."
      | Some payload =>
          appendResponseLine "LCP Breakdown UI opened." ;;;
          appendResponseLine "```json" ;;;
          appendResponseLine (stringify payload) ;;;
          appendResponseLine "```"
      end
  end.

(** ** A concrete environment

    A small instance of [Env], used to run the definitions on concrete
    inputs: the decoder reads ASCII bytes, the JSON reader covers
    [null], booleans, unsigned integers, strings without escapes, arrays
    and objects, and the engine accepts any array of events. *)

Module Fixture.

Definition is_ws (c : ascii) : bool :=
  match nat_of_ascii c with
  | 9 | 10 | 13 | 32 => true
  | _ => false
  end.

Fixpoint skip_ws (l : list ascii) : list ascii :=
  match l with
  | c :: r => if is_ws c then skip_ws r else l
  | [] => []
  end.

Definition digit (c : ascii) : option number :=
  match c with
  | "0"%char => Some 0%float
  | "1"%char => Some 1%float
  | "2"%char => Some 2%float
  | "3"%char => Some 3%float
  | "4"%char => Some 4%float
  | "5"%char => Some 5%float
  | "6"%char => Some 6%float
  | "7"%char => Some 7%float
  | "8"%char => Some 8%float
  | "9"%char => Some 9%float
  | _ => None
  end.

Fixpoint read_digits (acc : number) (l : list ascii) : number * list ascii :=
  match l with
  | c :: r =>
      match digit c with
      | Some d => read_digits (acc * 10 + d)%float r
      | None => (acc, l)
      end
  | [] => (acc, [])
  end.

Fixpoint read_string (acc : string) (l : list ascii)
  : option (string * list ascii) :=
  match l with
  | c :: r =>
      if Ascii.eqb c (ascii_of_nat 34) then Some (acc, r)
      else read_string (acc ++ String c EmptyString) r
  | [] => None
  end.

Fixpoint read_value (fuel : nat) (l : list ascii)
  : option (JSON * list ascii) :=
  match fuel with
  | O => None
  | S f =>
      match skip_ws l with
      | "n"%char :: "u"%char :: "l"%char :: "l"%char :: r => Some (JNull, r)
      | "t"%char :: "r"%char :: "u"%char :: "e"%char :: r =>
          Some (JBool true, r)
      | "f"%char :: "a"%char :: "l"%char :: "s"%char :: "e"%char :: r =>
          Some (JBool false, r)
      | "["%char :: r =>
          match skip_ws r with
          | "]"%char :: r' => Some (JArray [], r')
          | _ =>
              match read_items f r [] with
              | Some (items, r') => Some (JArray items, r')
              | None => None
              end
          end
      | "{"%char :: r =>
          match skip_ws r with
          | "}"%char :: r' => Some (JObject [], r')
          | _ =>
              match read_fields f r [] with
              | Some (fields, r') => Some (JObject fields, r')
              | None => None
              end
          end
      | c :: r =>
          if Ascii.eqb c (ascii_of_nat 34) then
            match read_string "" r with
            | Some (s, r') => Some (JString s, r')
            | None => None
            end
          else
            match digit c with
            | Some _ =>
                let (n, r') := read_digits 0%float (c :: r) in
                Some (JNumber n, r')
            | None => None
            end
      | [] => None
      end
  end
with read_items (fuel : nat) (l : list ascii) (acc : list JSON)
  : option (list JSON * list ascii) :=
  match fuel with
  | O => None
  | S f =>
      match read_value f l with
      | Some (v, r) =>
          match skip_ws r with
          | ","%char :: r' => read_items f r' (acc ++ [v])%list
          | "]"%char :: r' => Some ((acc ++ [v])%list, r')
          | _ => None
          end
      | None => None
      end
  end
with read_fields (fuel : nat) (l : list ascii) (acc : list (string * JSON))
  : option (list (string * JSON) * list ascii) :=
  match fuel with
  | O => None
  | S f =>
      match skip_ws l with
      | c :: r =>
          if Ascii.eqb c (ascii_of_nat 34) then
            match read_string "" r with
            | Some (k, r1) =>
                match skip_ws r1 with
                | ":"%char :: r2 =>
                    match read_value f r2 with
                    | Some (v, r3) =>
                        match skip_ws r3 with
                        | ","%char :: r4 =>
                            read_fields f r4 (acc ++ [(k, v)])%list
                        | "}"%char :: r4 => Some ((acc ++ [(k, v)])%list, r4)
                        | _ => None
                        end
                    | None => None
                    end
                | _ => None
                end
            | None => None
            end
          else None
      | [] => None
      end
  end.

Definition syntax_error : Thrown :=
  ErrorObject "SyntaxError" "Unexpected token in JSON".

Definition read_json (s : string) : Completion JSON :=
  match read_value (2 * String.length s + 2) (list_ascii_of_string s) with
  | Some (v, r) =>
      match skip_ws r with
      | [] => Normal v
      | _ => Throw syntax_error
      end
  | None => Throw syntax_error
  end.

Definition decode (b : bytes) : Completion string :=
  Normal (string_of_list_byte b).

(** The engine: [parse] accepts arrays only; [parsedTrace] hands out a
    trace when the call before it was a [parse] of an array. *)
Definition accept_arrays (events : option JSON) (_ : list Call)
  : Completion unit :=
  match events with
  | Some (JArray _) => Normal tt
  | _ => Throw (ErrorObject "Error" "Malformed trace events")
  end.

Definition empty_trace (label : string) : DevTools.ParsedTrace :=
  {| DevTools.label := label;
     DevTools.parsed_insights := None;
     DevTools.LayoutShifts_clusters := [] |}.

Definition trace_after_parse (history : list Call)
  : Completion (option DevTools.ParsedTrace) :=
  match last history EngineReset with
  | EngineParse (Some (JArray _)) => Normal (Some (empty_trace "trace"))
  | _ => Normal None
  end.

Definition env : Env :=
  {| TextDecoder_decode := decode;
     JSON_parse := read_json;
     engine_resetProcessor := fun _ => Normal tt;
     engine_parse := accept_arrays;
     engine_parsedTrace := trace_after_parse;
     formatTraceSummary := fun pt => Normal (DevTools.label pt);
     formatInsight :=
       fun _ v =>
         match v with
         | PInsight m => Normal ("## Insight: " ++ DevTools.insightKey m)
         | PBuiltin n => Normal ("## Insight: undefined")
         | PNullish => Throw (ErrorObject "TypeError" "insight is null")
         end;
     callFrameDataFormatDescription := "call frames";
     networkDataFormatDescription := "network requests";
     context_getSelectedPage := fun _ => Normal tt;
     page_url := fun _ => "https://example.test/";
     page_goto := fun _ _ => Normal tt;
     tracing_start := fun _ _ => Normal tt;
     tracing_stop := fun _ => Normal (Some (list_byte_of_string "[]"));
     zlib_gzip := fun b _ => Normal b;
     context_saveFile := fun _ path _ => Normal path;
     accessibility_snapshot := fun _ => Normal None;
     node_elementHandle := fun _ _ => Normal None;
     handle_screenshot := fun _ _ => Normal [];
     handle_dispose := fun _ _ => Normal tt;
     base64 := fun _ => "" |}.

Definition idle : World :=
  {| calls := [];
     isRunningPerformanceTrace := false;
     recordedTraces := [];
     responseLines := [] |}.

Definition recording : World :=
  {| calls := [TracingStart categories];
     isRunningPerformanceTrace := true;
     recordedTraces := [];
     responseLines := [] |}.

End Fixture.


(** The events handed to [engine.parse], in order. *)
Definition fed_events (history : list Call) : list (option JSON) :=
  flat_map
    (fun c =>
       match c with
       | EngineParse events => [events]
       | _ => []
       end)
    history.

(** The engine calls of a history. *)
Definition engine_calls (history : list Call) : list Call :=
  filter is_engine_call history.

(** [JSON.parse] rejects the empty text. *)
Definition rejects_empty_text (env : Env) : Prop :=
  exists e, JSON_parse env "" = Throw e.

(** What the adapter does once the events are extracted ... *)
Definition feed (env : Env) (events : option JSON) : M ParseOutcome :=
  call (EngineParse events) (engine_parse env events) ;;;
  parsedTrace <- call EngineParsedTrace (engine_parsedTrace env) ;;
  match parsedTrace with
  | None =>
      ret (ParseError "No parsed trace was returned from the trace engine.")
  | Some pt =>
      ret (Success {| parsedTrace := pt;
                      insights := DevTools.parsed_insights pt |})
  end.

(** ... and its [catch] block. *)
Definition report (e : Thrown) : M ParseOutcome :=
  logger ("Unexpected error parsing trace: " ++ errorText e) ;;;
  ret (ParseError (errorText e)).

(** ** Vocabulary of the statements *)

(** The four subparts in the order of the phase list, as the
    specification words it: one phase per subpart that is there, its
    duration the range divided by 1000. *)
Definition phase_order
  : list (string * (DevTools.Subparts -> option DevTools.Subpart)) :=
  [ ("TTFB", DevTools.ttfb);
    ("Load Delay", DevTools.loadDelay);
    ("Load Duration", DevTools.loadDuration);
    ("Render Delay", DevTools.renderDelay) ].

Definition expected_phases (s : option DevTools.Subparts) : list LCPPhase :=
  match s with
  | None => []
  | Some sub =>
      flat_map
        (fun entry : string * (DevTools.Subparts -> option DevTools.Subpart) =>
           match snd entry sub with
           | Some p =>
               [{| name := fst entry;
                   durationMs := (DevTools.range p / 1000)%float |}]
           | None => []
           end)
        phase_order
  end.

(** The insight set [id] has an LCP breakdown with [lcpMs > 0]. *)
Definition has_positive_lcp (r : TraceResult) (id : string) : bool :=
  match getLCPBreakdownData r id with
  | Some d => gt (lcpMs d) 0%float
  | None => false
  end.

(** The selection policy in the specification's words: the ids are
    scanned in reverse, from the set produced last to the first, and the
    first set whose breakdown has a strictly positive [lcpMs] is picked. *)
Definition last_positive_set (r : TraceResult) : option string :=
  match insights r with
  | Some sets => find (has_positive_lcp r) (rev (DevTools.Map_keys sets))
  | None => None
  end.

(** No insight set is stored under the empty id.  The trace engine keys
    the insight sets by the id of their navigation, and the set of the
    events before any navigation by the constant [NO_NAVIGATION]. *)
Definition ids_nonempty (r : TraceResult) : bool :=
  match insights r with
  | Some sets => forallb truthy_string (DevTools.Map_keys sets)
  | None => true
  end.

(** The image kept for a screenshot of a layout shift: nothing when the
    event has no such screenshot, the legacy [snapshot] when the
    screenshot's arguments have one, else their [dataUri]. *)
Inductive image_of
  : option DevTools.ScreenshotEvent -> option string -> Prop :=
| image_absent : image_of None None
| image_snapshot (ev : DevTools.ScreenshotEvent) (img : string) :
    DevTools.snapshot (DevTools.screenshot_args ev) = Some img ->
    image_of (Some ev) (Some img)
| image_dataUri (ev : DevTools.ScreenshotEvent) :
    DevTools.snapshot (DevTools.screenshot_args ev) = None ->
    image_of (Some ev) (DevTools.dataUri (DevTools.screenshot_args ev)).

(** The score kept for a layout shift: the event's weighted score delta,
    [0] when the event has none. *)
Inductive score_of : DevTools.LayoutShiftEvent -> number -> Prop :=
| score_delta (e : DevTools.LayoutShiftEvent)
    (d : DevTools.LayoutShiftArgsData) (x : number) :
    DevTools.args_data e = Some d ->
    DevTools.weighted_score_delta d = Some x ->
    score_of e x
| score_no_delta (e : DevTools.LayoutShiftEvent)
    (d : DevTools.LayoutShiftArgsData) :
    DevTools.args_data e = Some d ->
    DevTools.weighted_score_delta d = None ->
    score_of e 0%float
| score_no_data (e : DevTools.LayoutShiftEvent) :
    DevTools.args_data e = None ->
    score_of e 0%float.

(** The entry [s] of the list is the one of the event [e]. *)
Definition entry_of (e : DevTools.LayoutShiftEvent) (s : LayoutShiftData)
  : Prop :=
  ts s = DevTools.ts e
  /\ score_of e (score s)
  /\ image_of (DevTools.screenshots_before e) (before (images s))
  /\ image_of (DevTools.screenshots_after e) (after (images s)).

(** The layout shifts of the clusters, cluster after cluster and, inside
    a cluster, event after event. *)
Definition flattened_shifts (clusters : list DevTools.Cluster)
  : list LayoutShiftData :=
  flat_map (fun c => map layoutShift_of (DevTools.events c)) clusters.

(** The nodes of an accessibility tree in pre-order: a node, then the
    subtrees of its children from the first to the last. *)
Fixpoint preorder (node : AXNode) : list AXNode :=
  match node with
  | AX _ _ children =>
      node ::
        match children with
        | Some cs => flat_map preorder cs
        | None => []
        end
  end.

(** The elements of a list up to the first that satisfies a test, that
    one included; the whole list when there is none. *)
Fixpoint upto {A} (p : A -> bool) (l : list A) : list A :=
  match l with
  | [] => []
  | x :: rest => x :: if p x then [] else upto p rest
  end.

(** [node.backendNodeId === target]. *)
Definition matches (target : number) (node : AXNode) : bool :=
  match node with
  | AX _ (Some i) _ => strict_eq i target
  | AX _ None _ => false
  end.

(** The nodes [findAXNode] is called on, in the order of the calls: the
    search of the source with a record of its visits. *)
Fixpoint visits (node : AXNode) (target : number) : list AXNode :=
  match node with
  | AX _ id children =>
      node ::
        if match id with
           | Some i => strict_eq i target
           | None => false
           end
        then []
        else
          match children with
          | Some cs =>
              (fix loop (l : list AXNode) : list AXNode :=
                 match l with
                 | [] => []
                 | child :: rest =>
                     (visits child target ++
                        match findAXNode child target with
                        | Some _ => []
                        | None => loop rest
                        end)%list
                 end) cs
          | None => []
          end
  end.

(** The error for an insight name that the lookup does not find. *)
Definition unknown_insight_message (insightName : string) : string :=
  "No Insight with the name " ++ insightName
  ++ " found. Double check the name you provided is accurate and try again.".

(** The context and the response are the same in the two states. *)
Definition same_context (w w' : World) : Prop :=
  isRunningPerformanceTrace w' = isRunningPerformanceTrace w
  /\ recordedTraces w' = recordedTraces w
  /\ responseLines w' = responseLines w.

(** The calls that write the trace to a file. *)
Definition is_file_call (c : Call) : bool :=
  match c with
  | Gzip _ | SaveFile _ _ => true
  | _ => false
  end.

(** A state with other calls in its history. *)
Definition with_calls (w : World) (history : list Call) : World :=
  {| calls := history;
     isRunningPerformanceTrace := isRunningPerformanceTrace w;
     recordedTraces := recordedTraces w;
     responseLines := responseLines w |}.

(** The line the adapter logs for a failure. *)
Definition parse_error_log (e : Thrown) : Call :=
  Logger ("Unexpected error parsing trace: " ++ errorText e).

(** The line the stop path logs for a failure. *)
Definition stop_error_log (e : Thrown) : Call :=
  Logger ("Error stopping performance trace: " ++ errorText e).

(** The two lines the stop path reports a failure with. *)
Definition stop_error_lines (e : Thrown) : list string :=
  [ "An error occurred generating the response for this trace:";
    errorText e ].

(** The four phase names, in the order of the phase list. *)
Definition phase_names : list string :=
  [ "TTFB"; "Load Delay"; "Load Duration"; "Render Delay" ].

(** The calls of the screenshot step. *)
Definition is_screenshot_step (c : Call) : bool :=
  match c with
  | AccessibilitySnapshot _ | ElementHandle _
  | HandleScreenshot _ | HandleDispose _ | Logger _ => true
  | _ => false
  end.

(** A computation keeps an observation of the state. *)
Definition keeps {A X} (obs : World -> X) (m : M A) : Prop :=
  forall w, obs (snd (m w)) = obs w.

(** The file calls of the history of a state. *)
Definition file_calls (w : World) : list Call :=
  filter is_file_call (calls w).

(** The steps of [stopTracingAndAppendOutput]: the block that saves the
    buffer, ... *)
Definition save_step (env : Env) (filePath : option string)
    (traceEventsBuffer : option bytes) : M unit :=
  match filePath, traceEventsBuffer with
  | Some path, Some buffer =>
      if truthy_string path then
        dataToWrite <-
          (if endsWith path ".gz"
           then call (Gzip buffer) (zlib_gzip env buffer)
           else ret buffer) ;;
        file <- call (SaveFile dataToWrite path)
                  (context_saveFile env dataToWrite path) ;;
        appendResponseLine
          ("The raw trace data was saved to " ++ file ++ ".")
      else ret tt
  | _, _ => ret tt
  end.

(** ... the statements that parse the buffer and report the outcome, ... *)
Definition report_step (env : Env) (traceEventsBuffer : option bytes)
  : M unit :=
  result <- parseRawTraceBuffer env traceEventsBuffer ;;
  appendResponseLine "The performance trace has been stopped." ;;;
  match result with
  | Success r =>
      context_storeTraceRecording r ;;;
      traceSummaryText <- lift (getTraceSummary env r) ;;
      appendResponseLine traceSummaryText
  | ParseError err =>
      appendResponseLine
        "There was an unexpected error parsing the trace:" ;;;
      appendResponseLine err
  end.

(** ... and the [catch] block. *)
Definition stop_handler (e : Thrown) : M unit :=
  logger ("Error stopping performance trace: " ++ errorText e) ;;;
  appendResponseLine
    "An error occurred generating the response for this trace:" ;;;
  appendResponseLine (errorText e).

(** A list with more at its end. *)
Definition extends {A} (l l' : list A) : Prop :=
  exists added, l' = (l ++ added)%list.

(** The three histories of a state are only appended to. *)
Definition grows (w w' : World) : Prop :=
  extends (calls w) (calls w')
  /\ extends (recordedTraces w) (recordedTraces w')
  /\ extends (responseLines w) (responseLines w').

(** A computation that only appends to the histories. *)
Definition growing {A} (m : M A) : Prop :=
  forall w, grows w (snd (m w)).

(** ** Sample data *)

Module Sample.

Definition subpart (micro : number) : option DevTools.Subpart :=
  Some {| DevTools.range := micro |}.

Definition lcp_insight (ms node : option number)
    (sub : option DevTools.Subparts) : DevTools.InsightModel :=
  {| DevTools.insightKey := "LCPBreakdown";
     DevTools.lcpEvent :=
       Some {| DevTools.args :=
                 Some {| DevTools.data :=
                           Some {| DevTools.nodeId := node |} |} |};
     DevTools.subparts := sub;
     DevTools.lcpMs := ms |}.

Definition set_of (m : DevTools.InsightModel) : DevTools.InsightSet :=
  {| DevTools.model := {| DevTools.own := [("LCPBreakdown", Some m)] |} |}.

Definition recording_of (sets : DevTools.TraceInsightSets)
    (clusters : list DevTools.Cluster) : TraceResult :=
  {| parsedTrace :=
       {| DevTools.label := "trace";
          DevTools.parsed_insights := Some sets;
          DevTools.LayoutShifts_clusters := clusters |};
     insights := Some sets |}.

(** Subparts [{ttfb: {range: 50000}, loadDelay: {range: 20000}}]. *)
Definition two_subparts : DevTools.Subparts :=
  {| DevTools.ttfb := subpart 50000%float;
     DevTools.loadDelay := subpart 20000%float;
     DevTools.loadDuration := None;
     DevTools.renderDelay := None |}.

Definition two_phase_recording : TraceResult :=
  recording_of
    [("NAVIGATION_0",
      set_of (lcp_insight (Some 120%float) (Some 7%float)
                (Some two_subparts)))]
    [].

(** Insight sets [A(lcpMs=0), B(lcpMs=120)]. *)
Definition recording_A_B : TraceResult :=
  recording_of
    [("A", set_of (lcp_insight (Some 0%float) None None));
     ("B", set_of (lcp_insight (Some 120%float) None None))]
    [].

(** One insight set, with [lcpMs = 120], under the empty id. *)
Definition recording_empty_id : TraceResult :=
  recording_of
    [("", set_of (lcp_insight (Some 120%float) None None))]
    [].

(** One insight set whose LCP node has the backend node id [0]. *)
Definition recording_node_zero : TraceResult :=
  recording_of
    [("NAVIGATION_0",
      set_of (lcp_insight (Some 120%float) (Some 0%float) None))]
    [].

(** The tree [{id:1, children:[{id:2},{id:3,children:[{id:4}]}]}]. *)
Definition node4 : AXNode := AX "button" (Some 4%float) None.
Definition tree : AXNode :=
  AX "RootWebArea" (Some 1%float)
    (Some [ AX "heading" (Some 2%float) None;
            AX "main" (Some 3%float) (Some [node4]) ]).

Definition shift (t : number) (img : string) : DevTools.LayoutShiftEvent :=
  {| DevTools.ts := t;
     DevTools.args_data := None;
     DevTools.screenshots_before :=
       Some {| DevTools.screenshot_args :=
                 {| DevTools.snapshot := None;
                    DevTools.dataUri := Some img |} |};
     DevTools.screenshots_after := None |}.

(** Two clusters; the timestamp [1234] occurs twice. *)
Definition shift_recording : TraceResult :=
  recording_of []
    [ {| DevTools.events := [shift 1000%float "a"; shift 1234%float "b"] |};
      {| DevTools.events := [shift 1234%float "c"] |} ].

(** An environment whose browser fails at [tracing.stop]. *)
Definition failing_stop (env : Env) : Env :=
  {| TextDecoder_decode := TextDecoder_decode env;
     JSON_parse := JSON_parse env;
     engine_resetProcessor := engine_resetProcessor env;
     engine_parse := engine_parse env;
     engine_parsedTrace := engine_parsedTrace env;
     formatTraceSummary := formatTraceSummary env;
     formatInsight := formatInsight env;
     callFrameDataFormatDescription := callFrameDataFormatDescription env;
     networkDataFormatDescription := networkDataFormatDescription env;
     context_getSelectedPage := context_getSelectedPage env;
     page_url := page_url env;
     page_goto := page_goto env;
     tracing_start := tracing_start env;
     tracing_stop :=
       fun _ => Throw (ErrorObject "Error" "Tracing is not started");
     zlib_gzip := zlib_gzip env;
     context_saveFile := context_saveFile env;
     accessibility_snapshot := accessibility_snapshot env;
     node_elementHandle := node_elementHandle env;
     handle_screenshot := handle_screenshot env;
     handle_dispose := handle_dispose env;
     base64 := base64 env |}.

(** The text of a trace too long for a JavaScript string: the decoder
    throws. *)
Definition too_long : Thrown :=
  ErrorObject "Error"
    "Cannot create a string longer than 0x1fffffe8 characters".

Definition failing_decoder (env : Env) : Env :=
  {| TextDecoder_decode := fun _ => Throw too_long;
     JSON_parse := JSON_parse env;
     engine_resetProcessor := engine_resetProcessor env;
     engine_parse := engine_parse env;
     engine_parsedTrace := engine_parsedTrace env;
     formatTraceSummary := formatTraceSummary env;
     formatInsight := formatInsight env;
     callFrameDataFormatDescription := callFrameDataFormatDescription env;
     networkDataFormatDescription := networkDataFormatDescription env;
     context_getSelectedPage := context_getSelectedPage env;
     page_url := page_url env;
     page_goto := page_goto env;
     tracing_start := tracing_start env;
     tracing_stop := tracing_stop env;
     zlib_gzip := zlib_gzip env;
     context_saveFile := context_saveFile env;
     accessibility_snapshot := accessibility_snapshot env;
     node_elementHandle := node_elementHandle env;
     handle_screenshot := handle_screenshot env;
     handle_dispose := handle_dispose env;
     base64 := base64 env |}.

(** A start request that asks for a reload. *)
Definition reload_params : StartTraceParams :=
  {| reload := true; autoStop := false; filePath := None |}.

(** The two wire shapes of the events [1, 2]. *)
Definition bare_array_text : string := "[1,2]".
Definition traceEvents_text : string :=
  "{" ++ dquote ++ "traceEvents" ++ dquote ++ ":[1,2]}".
Definition two_events : list JSON := [JNumber 1%float; JNumber 2%float].

(** The environment of [Fixture] with other answers of the engine, the
    formatter, the file system and the page. *)
Definition custom
    (parsed : list Call -> Completion (option DevTools.ParsedTrace))
    (summary : DevTools.ParsedTrace -> Completion string)
    (save : bytes -> string -> list Call -> Completion string)
    (snapshot : list Call -> Completion (option AXNode))
    (dispose : Handle -> list Call -> Completion unit) : Env :=
  {| TextDecoder_decode := TextDecoder_decode Fixture.env;
     JSON_parse := JSON_parse Fixture.env;
     engine_resetProcessor := engine_resetProcessor Fixture.env;
     engine_parse := engine_parse Fixture.env;
     engine_parsedTrace := parsed;
     formatTraceSummary := summary;
     formatInsight := formatInsight Fixture.env;
     callFrameDataFormatDescription :=
       callFrameDataFormatDescription Fixture.env;
     networkDataFormatDescription :=
       networkDataFormatDescription Fixture.env;
     context_getSelectedPage := context_getSelectedPage Fixture.env;
     page_url := page_url Fixture.env;
     page_goto := page_goto Fixture.env;
     tracing_start := tracing_start Fixture.env;
     tracing_stop := tracing_stop Fixture.env;
     zlib_gzip := zlib_gzip Fixture.env;
     context_saveFile := save;
     accessibility_snapshot := snapshot;
     node_elementHandle := fun _ _ => Normal (Some {| handle_id := 1 |});
     handle_screenshot := fun _ _ => Normal (list_byte_of_string "png");
     handle_dispose := dispose;
     base64 := fun _ => "cG5n" |}.

Definition boom : Thrown := ErrorObject "Error" "boom".

(** The engine has no parsed trace. *)
Definition no_trace_env : Env :=
  custom (fun _ => Normal None) (formatTraceSummary Fixture.env)
    (context_saveFile Fixture.env) (accessibility_snapshot Fixture.env)
    (handle_dispose Fixture.env).

(** The summary formatter throws. *)
Definition failing_summary : Env :=
  custom (engine_parsedTrace Fixture.env) (fun _ => Throw boom)
    (context_saveFile Fixture.env) (accessibility_snapshot Fixture.env)
    (handle_dispose Fixture.env).

(** The file cannot be written. *)
Definition failing_save : Env :=
  custom (engine_parsedTrace Fixture.env) (formatTraceSummary Fixture.env)
    (fun _ _ _ => Throw boom) (accessibility_snapshot Fixture.env)
    (handle_dispose Fixture.env).

(** The accessibility snapshot throws. *)
Definition failing_snapshot : Env :=
  custom (engine_parsedTrace Fixture.env) (formatTraceSummary Fixture.env)
    (context_saveFile Fixture.env) (fun _ => Throw boom)
    (handle_dispose Fixture.env).

(** The snapshot is [tree]; the element handle cannot be disposed of. *)
Definition failing_dispose : Env :=
  custom (engine_parsedTrace Fixture.env) (formatTraceSummary Fixture.env)
    (context_saveFile Fixture.env) (fun _ => Normal (Some tree))
    (fun _ _ => Throw boom).

(** One insight set whose LCP insight has no [lcpMs]. *)
Definition recording_without_lcpMs : TraceResult :=
  recording_of
    [("NAVIGATION_0", set_of (lcp_insight None (Some 4%float) None))]
    [].

(** One insight set whose LCP node has the backend node id [4]. *)
Definition recording_node_four : TraceResult :=
  recording_of
    [("NAVIGATION_0",
      set_of (lcp_insight (Some 120%float) (Some 4%float) None))]
    [].

(** A state that holds [recording_A_B] after an earlier recording. *)
Definition two_recordings : World :=
  {| calls := [];
     isRunningPerformanceTrace := false;
     recordedTraces := [two_phase_recording; recording_A_B];
     responseLines := [] |}.

(** Values of the statements on the sample data. *)
Definition two_phase_breakdown : LCPBreakdownData :=
  {| lcpMs := 120%float;
     backendNodeId := Some 7%float;
     phases := [ {| name := "TTFB"; durationMs := 50%float |};
                 {| name := "Load Delay"; durationMs := 20%float |} ] |}.

Definition handle_one : Handle := {| handle_id := 1 |}.

Definition empty_array_bytes : bytes := list_byte_of_string "[]".

Definition stored_trace : TraceResult :=
  {| parsedTrace := Fixture.empty_trace "trace"; insights := None |}.

Definition after_parse : World :=
  with_calls Fixture.recording
    (calls Fixture.recording
     ++ [TracingStop; EngineReset; EngineParse (Some (JArray []));
         EngineParsedTrace]).

Definition auto_stop_params : StartTraceParams :=
  {| reload := false; autoStop := true; filePath := None |}.

End Sample.

(** * Properties *)

(** ** The capture lifecycle *)

Section Lifecycle.

Variable env : Env.

(** C1. While a recording is active, [performance_start_trace] is
    rejected: it returns after appending the error line to the response,
    and nothing else changes: the recording flag stays set, the recorded
    traces are the same, and no call reaches the page, the tracing
    controller or any other collaborator. *)
Theorem startTrace_rejected_while_recording
    (params : StartTraceParams) (w : World) :
  isRunningPerformanceTrace w = true ->
  let (completion, w') := startTrace env params w in
  completion = Normal tt
  /\ isRunningPerformanceTrace w' = true
  /\ recordedTraces w' = recordedTraces w
  /\ calls w' = calls w
  /\ responseLines w' = (responseLines w ++ [already_running_message])%list.
Proof.
  intros Hrunning.
  unfold startTrace, bind, context_isRunningPerformanceTrace.
  rewrite Hrunning. cbn.
  repeat split. exact Hrunning.
Qed.

(** The release block runs however the guarded block completes. *)
Lemma try_finally_release {A} (body : M A) (w : World) :
  isRunningPerformanceTrace
    (snd (try_finally body (context_setIsRunningPerformanceTrace false) w))
  = false.
Proof.
  unfold try_finally.
  destruct (body w) as [c w']. reflexivity.
Qed.

(** The stop path reports every failure in the response: it completes
    normally whatever the collaborators do. *)
Lemma stop_completes (filePath : option string) (w : World) :
  fst (stopTracingAndAppendOutput env filePath w) = Normal tt.
Proof.
  unfold stopTracingAndAppendOutput, try_finally, try_catch.
  match goal with
  | |- context [match ?body w with _ => _ end] =>
      destruct (body w) as [[[] | e] w']
  end; reflexivity.
Qed.

(** Once the flag is cleared the guard of the start handler lets the
    call through. *)
Lemma startTrace_accepted_when_idle (params : StartTraceParams) (w : World) :
  isRunningPerformanceTrace w = false ->
  startTrace env params w = startRecording env params w.
Proof.
  intros Hidle.
  unfold startTrace, bind, context_isRunningPerformanceTrace.
  rewrite Hidle. reflexivity.
Qed.

(** An accepted start, without reload and without auto-stop: the flag
    is set and [tracing.start] is the one call made. *)
Lemma startRecording_plain (path : option string) (w : World) :
  context_getSelectedPage env (calls w) = Normal tt ->
  tracing_start env categories (calls w) = Normal tt ->
  startRecording env
    {| reload := false; autoStop := false; filePath := path |} w
  = (Normal tt,
     {| calls := (calls w ++ [TracingStart categories])%list;
        isRunningPerformanceTrace := true;
        recordedTraces := recordedTraces w;
        responseLines :=
          (responseLines w
           ++ ["The performance trace is being recorded. Use performance_stop_trace to stop it."])%list |}).
Proof.
  intros Hpage Hstart.
  unfold startRecording, bind, context_setIsRunningPerformanceTrace,
    context_getSelectedPage_, page_url_, call, ret, appendResponseLine.
  cbn. rewrite Hpage. cbn. rewrite Hstart. reflexivity.
Qed.

(** C2. However the stop path goes: whatever [tracing.stop], gzip, the
    file save, the parse and the summary return or throw, the recording
    flag is cleared when [stopTracingAndAppendOutput] completes, and a
    start request that follows passes the guard. *)
Theorem stop_always_clears_recording
    (filePath : option string) (params : StartTraceParams) (w : World) :
  let w' := snd (stopTracingAndAppendOutput env filePath w) in
  isRunningPerformanceTrace w' = false
  /\ startTrace env params w' = startRecording env params w'.
Proof.
  assert (Hflag :
    isRunningPerformanceTrace
      (snd (stopTracingAndAppendOutput env filePath w)) = false)
    by apply try_finally_release.
  cbv zeta. split.
  - exact Hflag.
  - apply startTrace_accepted_when_idle, Hflag.
Qed.

End Lifecycle.

(** ** The buffer decoder and the trace adapter *)

Section Adapter.

Variable env : Env.

(** The adapter resets the engine before it looks at the buffer. *)
Lemma parse_resets_first (buffer : option bytes) (w : World) :
  exists rest,
    calls (snd (parseRawTraceBuffer env buffer w))
    = (calls w ++ EngineReset :: rest)%list.
Proof.
  unfold parseRawTraceBuffer, bind, call. cbn.
  destruct (engine_resetProcessor env (calls w)) as [[] | e]; cbn.
  2: { exists []. reflexivity. }
  destruct buffer as [b |]; cbn.
  2: { exists []. reflexivity. }
  unfold lift.
  destruct (TextDecoder_decode env b) as [text | e]; cbn.
  2: { exists []. reflexivity. }
  destruct (truthy_string text); cbn.
  2: { exists []. reflexivity. }
  unfold try_catch, bind, lift, call, ret, logger. cbn.
  destruct (JSON_parse env text) as [d | e]; cbn.
  2: { eexists. rewrite <- app_assoc. reflexivity. }
  destruct (traceEvents_of d) as [ev | e]; cbn.
  2: { eexists. rewrite <- app_assoc. reflexivity. }
  destruct (engine_parse env ev _) as [[] | e]; cbn.
  2: { eexists. rewrite <- !app_assoc. reflexivity. }
  destruct (engine_parsedTrace env _) as [[pt |] | e]; cbn;
    eexists; rewrite <- !app_assoc; reflexivity.
Qed.

(** C3, as the code has it.  For an absent buffer, and for a buffer that
    decodes to the empty string, the adapter makes exactly one call to
    the engine, the reset it starts with; [engine.parse] and
    [engine.parsedTrace] are not called and nothing else changes.  When
    the reset returns, the result is the error value: "No buffer was
    provided." for an absent buffer, "Decoding the trace buffer returned
    an empty string." for an empty text; when the reset throws, so does
    the adapter. *)
Theorem parse_empty_input (buffer : option bytes) (w : World) :
  (forall b, buffer = Some b -> TextDecoder_decode env b = Normal "") ->
  let (completion, w') := parseRawTraceBuffer env buffer w in
  calls w' = (calls w ++ [EngineReset])%list
  /\ isRunningPerformanceTrace w' = isRunningPerformanceTrace w
  /\ recordedTraces w' = recordedTraces w
  /\ responseLines w' = responseLines w
  /\ completion =
       match engine_resetProcessor env (calls w) with
       | Normal _ =>
           Normal
             (ParseError
                match buffer with
                | None => "No buffer was provided."
                | Some _ =>
                    "Decoding the trace buffer returned an empty string."
                end)
       | Throw e => Throw e
       end.
Proof.
  intros Hempty.
  unfold parseRawTraceBuffer, bind, call. cbn.
  destruct (engine_resetProcessor env (calls w)) as [[] | e]; cbn.
  2: { repeat split. }
  destruct buffer as [b |]; cbn.
  2: { repeat split. }
  unfold lift. rewrite (Hempty b eq_refl). cbn.
  repeat split.
Qed.

Lemma parsed_text_truthy (s : string) (d : JSON) :
  rejects_empty_text env ->
  JSON_parse env s = Normal d ->
  truthy_string s = true.
Proof.
  intros [e He] Hs.
  unfold truthy_string.
  destruct (String.eqb_spec s "") as [-> | Hne]; [ | reflexivity ].
  rewrite He in Hs. discriminate.
Qed.

(** A buffer whose text parses to [data], with [events] extracted from
    it: the adapter resets the engine and feeds it [events]. *)
Lemma parse_accepted_text (b : bytes) (text : string) (data : JSON)
    (events : option JSON) (w : World) :
  rejects_empty_text env ->
  TextDecoder_decode env b = Normal text ->
  JSON_parse env text = Normal data ->
  traceEvents_of data = Normal events ->
  parseRawTraceBuffer env (Some b) w
  = (call EngineReset (engine_resetProcessor env) ;;;
     try_catch (feed env events) report) w.
Proof.
  intros Hrej Htext Hparse Hevents.
  unfold parseRawTraceBuffer, try_catch, feed, report, bind, call, lift.
  cbn.
  destruct (engine_resetProcessor env (calls w)) as [[] | e];
    [ | reflexivity ].
  rewrite Htext. cbn.
  rewrite (parsed_text_truthy _ _ Hrej Hparse). cbn.
  rewrite Hparse, Hevents. reflexivity.
Qed.

Lemma fed_events_app (h1 h2 : list Call) :
  fed_events (h1 ++ h2) = (fed_events h1 ++ fed_events h2)%list.
Proof. apply flat_map_app. Qed.

(** Feeding the engine hands it the events once. *)
Lemma feed_fed_events (events : option JSON) (w : World) :
  fed_events (calls (snd (try_catch (feed env events) report w)))
  = (fed_events (calls w) ++ [events])%list.
Proof.
  unfold try_catch, feed, report, bind, call, ret, logger. cbn.
  destruct (engine_parse env events (calls w)) as [[] | e]; cbn.
  2: { rewrite !fed_events_app. cbn. rewrite app_nil_r. reflexivity. }
  destruct (engine_parsedTrace env _) as [[pt |] | e]; cbn;
    rewrite !fed_events_app; cbn; rewrite ?app_nil_r; reflexivity.
Qed.

(** C4. A buffer whose text is the bare array [L] and a buffer whose
    text is an object with [L] under [traceEvents] are treated alike:
    from the same state the two calls complete the same way, with the
    same result and the same calls to the collaborators, and when the
    reset returns, [engine.parse] receives the array [L] (the same events,
    in the same number) exactly once in both. *)
Theorem both_wire_shapes_agree
    (L : list JSON) (fields : list (string * JSON)) (b1 b2 : bytes)
    (text1 text2 : string) (w : World) :
  rejects_empty_text env ->
  TextDecoder_decode env b1 = Normal text1 ->
  JSON_parse env text1 = Normal (JArray L) ->
  TextDecoder_decode env b2 = Normal text2 ->
  JSON_parse env text2 = Normal (JObject fields) ->
  assoc "traceEvents" fields = Some (JArray L) ->
  parseRawTraceBuffer env (Some b1) w = parseRawTraceBuffer env (Some b2) w
  /\ (engine_resetProcessor env (calls w) = Normal tt ->
      fed_events (calls (snd (parseRawTraceBuffer env (Some b1) w)))
      = (fed_events (calls w) ++ [Some (JArray L)])%list
      /\ fed_events (calls (snd (parseRawTraceBuffer env (Some b2) w)))
         = (fed_events (calls w) ++ [Some (JArray L)])%list).
Proof.
  intros Hrej T1 H1 T2 H2 Hfield.
  assert (E1 := parse_accepted_text b1 text1 (JArray L) (Some (JArray L)) w
                  Hrej T1 H1 eq_refl).
  assert (E2 : traceEvents_of (JObject fields) = Normal (Some (JArray L)))
    by (cbn; rewrite Hfield; reflexivity).
  assert (E3 := parse_accepted_text b2 text2 (JObject fields)
                  (Some (JArray L)) w Hrej T2 H2 E2).
  split.
  - rewrite E1, E3. reflexivity.
  - intros Hreset.
    assert (Hrun :
      fed_events
        (calls
           (snd ((call EngineReset (engine_resetProcessor env) ;;;
                  try_catch (feed env (Some (JArray L))) report) w)))
      = (fed_events (calls w) ++ [Some (JArray L)])%list).
    { unfold bind at 1. unfold call at 1. rewrite Hreset.
      rewrite feed_fed_events. cbn [calls].
      rewrite fed_events_app. cbn. rewrite app_nil_r. reflexivity. }
    rewrite E1, E3. split; exact Hrun.
Qed.

End Adapter.


(** ** The LCP breakdown *)

Section Breakdown.

(** The four conditional pushes build the list the specification words. *)
Lemma pushes_expected (sub : DevTools.Subparts) :
  push_phase
    (push_phase
       (push_phase (push_phase [] "TTFB" (DevTools.ttfb sub))
          "Load Delay" (DevTools.loadDelay sub))
       "Load Duration" (DevTools.loadDuration sub))
    "Render Delay" (DevTools.renderDelay sub)
  = expected_phases (Some sub).
Proof.
  destruct sub as [[a |] [b |] [c |] [d |]]; reflexivity.
Qed.

(** C5. When the insight set [insightSetId] of the result holds an
    [LCPBreakdown] insight, [getLCPBreakdownData] returns a breakdown
    whose phases are, in the order TTFB, Load Delay, Load Duration,
    Render Delay, one phase for each subpart the insight has, of
    duration [range / 1000]; a subpart that is absent gives no phase. *)
Theorem lcp_phases_follow_subparts
    (result : TraceResult) (insightSetId : string)
    (sets : DevTools.TraceInsightSets) (insightSet : DevTools.InsightSet)
    (lcpInsight : DevTools.InsightModel) :
  insights result = Some sets ->
  DevTools.Map_get sets insightSetId = Some insightSet ->
  model_LCPBreakdown (DevTools.model insightSet) = Some lcpInsight ->
  exists d,
    getLCPBreakdownData result insightSetId = Some d
    /\ phases d = expected_phases (DevTools.subparts lcpInsight).
Proof.
  intros Hsets Hset Hlcp.
  unfold getLCPBreakdownData. rewrite Hsets, Hset, Hlcp.
  eexists. split; [ reflexivity | ]. cbn [phases].
  assert (Hphases :
    match DevTools.subparts lcpInsight with
    | Some s =>
        push_phase
          (push_phase
             (push_phase (push_phase [] "TTFB" (DevTools.ttfb s))
                "Load Delay" (DevTools.loadDelay s))
             "Load Duration" (DevTools.loadDuration s))
          "Render Delay" (DevTools.renderDelay s)
    | None => []
    end = expected_phases (DevTools.subparts lcpInsight)).
  { destruct (DevTools.subparts lcpInsight) as [s |];
      [ apply pushes_expected | reflexivity ]. }
  exact Hphases.
Qed.

(** The specification's example: subparts
    [{ttfb: {range: 50000}, loadDelay: {range: 20000}}] give the phases
    [TTFB, 50] and [Load Delay, 20]. *)
Example two_subparts_two_phases :
  option_map phases
    (getLCPBreakdownData Sample.two_phase_recording "NAVIGATION_0")
  = Some [ {| name := "TTFB"; durationMs := 50%float |};
           {| name := "Load Delay"; durationMs := 20%float |} ].
Proof. reflexivity. Qed.

(** The backward loop returns the first id, from the last, whose set
    has a positive [lcpMs]. *)
Lemma lastInsightSetWithLCP_find (r : TraceResult) (ids : list string) :
  lastInsightSetWithLCP r ids = find (has_positive_lcp r) ids.
Proof.
  induction ids as [| id rest IH]; [ reflexivity | ].
  cbn. unfold has_positive_lcp at 1.
  destruct (getLCPBreakdownData r id) as [d |]; [ | exact IH ].
  unfold gt. destruct (PrimFloat.ltb 0 (lcpMs d)); [ reflexivity | exact IH ].
Qed.

Variable env : Env.

(** When the id the loop selects is not the empty string, the selection
    returns the breakdown of that insight set. *)
Lemma selection_returns_selected
    (r : TraceResult) (id : string) (w : World) :
  finalInsightSetId r = Some id ->
  truthy_string id = true ->
  exists d shot w',
    getLCPBreakdownData r id = Some d
    /\ gt (lcpMs d) 0%float = true
    /\ (getLCPDataWithScreenshot env r w
        = (Normal (Some {| lcpData := d; screenshot := shot |}), w')
        \/ exists e, getLCPDataWithScreenshot env r w = (Throw e, w')).
Proof.
  intros Hfinal Hid.
  assert (Hpos : has_positive_lcp r id = true).
  { unfold finalInsightSetId in Hfinal.
    destruct (insights r) as [sets |]; [ | discriminate ].
    rewrite lastInsightSetWithLCP_find in Hfinal.
    apply find_some in Hfinal. apply Hfinal. }
  unfold has_positive_lcp in Hpos.
  destruct (getLCPBreakdownData r id) as [d |] eqn:Hd; [ | discriminate ].
  unfold getLCPDataWithScreenshot. rewrite Hfinal. cbn. rewrite Hid. cbn.
  rewrite Hd. unfold bind.
  match goal with
  | |- context [match ?m w with _ => _ end] => destruct (m w) as [[s | e] w']
  end.
  - exists d, s, w'. repeat split; auto.
  - exists d, None, w'. repeat split; eauto.
Qed.

(** When no insight set has a positive [lcpMs], the selection yields
    [null] and touches nothing. *)
Lemma selection_none (r : TraceResult) (w : World) :
  finalInsightSetId r = None ->
  getLCPDataWithScreenshot env r w = (Normal None, w).
Proof.
  intros Hfinal. unfold getLCPDataWithScreenshot. rewrite Hfinal.
  reflexivity.
Qed.

(** The screenshot step throws only what [context.getSelectedPage]
    throws. *)
Lemma takeScreenshot_throws (target : number) (e : Thrown) (w : World) :
  fst (takeScreenshot env target w) = Throw e ->
  context_getSelectedPage env (calls w) = Throw e.
Proof.
  unfold takeScreenshot, try_catch, bind, call, ret, logger,
    context_getSelectedPage_.
  cbn.
  destruct (context_getSelectedPage env (calls w)) as [[] | e0]; cbn;
    [ | intros H; injection H as ->; reflexivity ].
  destruct (accessibility_snapshot env (calls w)) as [[root |] | e1]; cbn;
    try discriminate.
  destruct (findAXNode root target) as [node |]; cbn; try discriminate.
  destruct (node_elementHandle env node _) as [[h |] | e2]; cbn;
    try discriminate.
  destruct (handle_screenshot env h _) as [buf | e3]; cbn;
    try discriminate.
  destruct (handle_dispose env h _) as [[] | e4]; cbn; discriminate.
Qed.

(** The loop of the code is the scan of the specification. *)
Lemma finalInsightSetId_is_scan (r : TraceResult) :
  finalInsightSetId r = last_positive_set r.
Proof.
  unfold finalInsightSetId, last_positive_set.
  destruct (insights r) as [sets |]; [ | reflexivity ].
  apply lastInsightSetWithLCP_find.
Qed.

(** The scan picks one of the ids of the recording. *)
Lemma last_positive_set_is_key (r : TraceResult) (id : string) :
  last_positive_set r = Some id ->
  ids_nonempty r = true ->
  truthy_string id = true.
Proof.
  unfold last_positive_set, ids_nonempty.
  destruct (insights r) as [sets |]; [ | discriminate ].
  intros Hfind Hids. apply find_some in Hfind. destruct Hfind as [Hin _].
  rewrite forallb_forall in Hids. apply Hids. apply in_rev. exact Hin.
Qed.

(** C6. The selection of the breakdown to display scans the ids of the
    insight sets in reverse order and picks the first set whose
    breakdown has a strictly positive [lcpMs]: [getLCPDataWithScreenshot]
    returns the breakdown of that set (with or without a screenshot; it
    throws only when the selected page cannot be obtained for the
    screenshot), and when no set has a positive [lcpMs] it yields [null]
    and touches nothing.  The ids are those of the trace engine, none of
    them empty. *)
Theorem selection_picks_last_positive (r : TraceResult) (w : World) :
  ids_nonempty r = true ->
  match last_positive_set r with
  | Some id =>
      exists d,
        getLCPBreakdownData r id = Some d
        /\ gt (lcpMs d) 0%float = true
        /\ ((exists shot,
               fst (getLCPDataWithScreenshot env r w)
               = Normal (Some {| lcpData := d; screenshot := shot |}))
            \/ (exists e,
                  context_getSelectedPage env (calls w) = Throw e
                  /\ fst (getLCPDataWithScreenshot env r w) = Throw e))
  | None => getLCPDataWithScreenshot env r w = (Normal None, w)
  end.
Proof.
  intros Hids.
  destruct (last_positive_set r) as [id |] eqn:Hscan.
  - pose proof (last_positive_set_is_key r id Hscan Hids) as Hid.
    assert (Hpos : has_positive_lcp r id = true).
    { unfold last_positive_set in Hscan.
      destruct (insights r) as [sets |]; [ | discriminate ].
      apply find_some in Hscan. apply Hscan. }
    unfold has_positive_lcp in Hpos.
    destruct (getLCPBreakdownData r id) as [d |] eqn:Hd; [ | discriminate ].
    exists d. split; [ reflexivity | ]. split; [ exact Hpos | ].
    unfold getLCPDataWithScreenshot.
    rewrite finalInsightSetId_is_scan, Hscan. cbn. rewrite Hid. cbn.
    rewrite Hd. unfold bind.
    destruct (truthy_opt truthy_number (backendNodeId d));
      [ | left; exists None; reflexivity ].
    destruct (backendNodeId d) as [target |];
      [ | left; exists None; reflexivity ].
    pose proof (fun e => takeScreenshot_throws target e w) as Hthrows.
    destruct (takeScreenshot env target w) as [[shot | e] w'].
    + left. exists shot. reflexivity.
    + right. exists e. split; [ apply Hthrows | ]; reflexivity.
  - apply selection_none. rewrite finalInsightSetId_is_scan. exact Hscan.
Qed.

(** The specification's example: over [A(lcpMs=0), B(lcpMs=120)] the
    selection returns the breakdown of [B]. *)
Example selection_A_B :
  finalInsightSetId Sample.recording_A_B = Some "B"
  /\ getLCPDataWithScreenshot Fixture.env Sample.recording_A_B Fixture.idle
     = (Normal
          (Some {| lcpData := {| lcpMs := 120%float;
                                 backendNodeId := None;
                                 phases := [] |};
                   screenshot := None |}),
        Fixture.idle).
Proof. split; reflexivity. Qed.

(** The test [!finalInsightSetId] that follows the backward scan takes
    the empty string for "nothing selected": an insight set stored under
    the empty id, which the trace engine does not produce, would be
    passed over although its [lcpMs] is positive. *)
Example empty_id_is_passed_over :
  finalInsightSetId Sample.recording_empty_id = Some ""
  /\ has_positive_lcp Sample.recording_empty_id "" = true
  /\ getLCPDataWithScreenshot Fixture.env Sample.recording_empty_id
       Fixture.idle
     = (Normal None, Fixture.idle).
Proof. repeat split. Qed.

(** C10. When the selected breakdown carries a [backendNodeId] equal to
    [0], the guard [if (lcpData.backendNodeId)] fails: the result is the
    breakdown with no screenshot, and no call is made to any
    collaborator: no accessibility snapshot, no element handle, no
    screenshot. *)
Theorem zero_backend_node_skips_screenshot
    (r : TraceResult) (id : string) (d : LCPBreakdownData) (z : number)
    (w : World) :
  finalInsightSetId r = Some id ->
  truthy_string id = true ->
  getLCPBreakdownData r id = Some d ->
  backendNodeId d = Some z ->
  strict_eq z 0%float = true ->
  getLCPDataWithScreenshot env r w
  = (Normal (Some {| lcpData := d; screenshot := None |}), w).
Proof.
  intros Hfinal Hid Hd Hnode Hzero.
  unfold getLCPDataWithScreenshot. rewrite Hfinal. cbn. rewrite Hid. cbn.
  rewrite Hd, Hnode. cbn. unfold truthy_number.
  unfold strict_eq in Hzero. rewrite Hzero. reflexivity.
Qed.

End Breakdown.

(** ** The insight registry *)

Section Registry.

Variable env : Env.

(** Step 1: no insights. *)
Lemma getInsightOutput_no_insights
    (result : TraceResult) (insightSetId insightName : string) :
  insights result = None ->
  getInsightOutput env result insightSetId insightName
  = Normal (error "No Performance insights are available for this trace.").
Proof.
  intros H. unfold getInsightOutput. rewrite H. reflexivity.
Qed.

(** Step 2: no insight set under the id. *)
Lemma getInsightOutput_unknown_set
    (result : TraceResult) (sets : DevTools.TraceInsightSets)
    (insightSetId insightName : string) :
  insights result = Some sets ->
  DevTools.Map_get sets insightSetId = None ->
  getInsightOutput env result insightSetId insightName
  = Normal
      (error
         ("No Performance Insights for the given insight set id. Only use ids given in the "
          ++ dquote ++ "Available insight sets" ++ dquote ++ " list.")).
Proof.
  intros H1 H2. unfold getInsightOutput. rewrite H1, H2. reflexivity.
Qed.

Lemma own_key_has_property (o : DevTools.ModelObject) (name : string)
    (v : option DevTools.InsightModel) :
  assoc name (DevTools.own o) = Some v ->
  has_property o name = true.
Proof.
  unfold has_property. intros H.
  apply orb_true_intro. left.
  induction (DevTools.own o) as [| [k x] rest IH]; [ discriminate | ].
  cbn in *. destruct (String.eqb name k); [ reflexivity | ].
  cbn. apply IH, H.
Qed.

(** X8. Step 3: the name is neither an own property of the model nor a
    member of [Object.prototype], or it is an own property that holds a
    nullish value. *)
Lemma getInsightOutput_unknown_name
    (result : TraceResult) (sets : DevTools.TraceInsightSets)
    (insightSet : DevTools.InsightSet) (insightSetId insightName : string) :
  insights result = Some sets ->
  DevTools.Map_get sets insightSetId = Some insightSet ->
  assoc insightName (DevTools.own (DevTools.model insightSet)) = Some None
  \/ (assoc insightName (DevTools.own (DevTools.model insightSet)) = None
      /\ inherited insightName = false) ->
  getInsightOutput env result insightSetId insightName
  = Normal (error (unknown_insight_message insightName)).
Proof.
  intros H1 H2 Hname. unfold getInsightOutput. rewrite H1, H2.
  unfold get_property.
  destruct Hname as [Hnull | [Habsent Hproto]].
  - rewrite Hnull. destruct (has_property _ _); reflexivity.
  - rewrite Habsent, Hproto. destruct (has_property _ _); reflexivity.
Qed.

(** Step 4: the name is an own property that holds an insight. *)
Lemma getInsightOutput_found
    (result : TraceResult) (sets : DevTools.TraceInsightSets)
    (insightSet : DevTools.InsightSet) (insightSetId insightName : string)
    (m : DevTools.InsightModel) :
  insights result = Some sets ->
  DevTools.Map_get sets insightSetId = Some insightSet ->
  assoc insightName (DevTools.own (DevTools.model insightSet))
  = Some (Some m) ->
  getInsightOutput env result insightSetId insightName
  = match formatInsight env (parsedTrace result) (PInsight m) with
    | Normal text => Normal (output text)
    | Throw e => Throw e
    end.
Proof.
  intros H1 H2 Hname. unfold getInsightOutput. rewrite H1, H2.
  rewrite (own_key_has_property _ _ _ Hname).
  unfold get_property. rewrite Hname. reflexivity.
Qed.

(** A name that the model does not have as a key but that plain objects
    inherit passes the [in] test and reads a truthy value: the lookup
    does not report it, it hands the inherited member to the
    formatter. *)
Lemma getInsightOutput_inherited
    (result : TraceResult) (sets : DevTools.TraceInsightSets)
    (insightSet : DevTools.InsightSet) (insightSetId insightName : string) :
  insights result = Some sets ->
  DevTools.Map_get sets insightSetId = Some insightSet ->
  assoc insightName (DevTools.own (DevTools.model insightSet)) = None ->
  inherited insightName = true ->
  getInsightOutput env result insightSetId insightName
  = match formatInsight env (parsedTrace result) (PBuiltin insightName) with
    | Normal text => Normal (output text)
    | Throw e => Throw e
    end.
Proof.
  intros H1 H2 Habsent Hproto. unfold getInsightOutput. rewrite H1, H2.
  unfold has_property, get_property. rewrite Habsent, Hproto.
  rewrite orb_true_r. reflexivity.
Qed.

(** C7, where the code departs from it.  The insight set [A] has the
    single key [LCPBreakdown]; asked for the insight [toString], which is
    not a key of the model, the lookup does not return the error that
    names the insight: [toString] is inherited from [Object.prototype],
    so the [in] test succeeds, the value read is truthy, and the result
    is whatever the formatter makes of it. *)
Theorem inherited_name_is_not_reported :
  map fst
    (DevTools.own
       (DevTools.model
          (Sample.set_of (Sample.lcp_insight (Some 0%float) None None))))
  = ["LCPBreakdown"]
  /\ getInsightOutput env Sample.recording_A_B "A" "toString"
     = match
         formatInsight env (parsedTrace Sample.recording_A_B)
           (PBuiltin "toString")
       with
       | Normal text => Normal (output text)
       | Throw e => Throw e
       end
  /\ getInsightOutput env Sample.recording_A_B "A" "toString"
     <> Normal (error (unknown_insight_message "toString")).
Proof.
  assert (H :
    getInsightOutput env Sample.recording_A_B "A" "toString"
    = match
        formatInsight env (parsedTrace Sample.recording_A_B)
          (PBuiltin "toString")
      with
      | Normal text => Normal (output text)
      | Throw e => Throw e
      end).
  { apply getInsightOutput_inherited
      with (sets := [("A", Sample.set_of
                             (Sample.lcp_insight (Some 0%float) None None));
                     ("B", Sample.set_of
                             (Sample.lcp_insight (Some 120%float) None None))])
           (insightSet := Sample.set_of
                            (Sample.lcp_insight (Some 0%float) None None));
      reflexivity. }
  split; [ reflexivity | ]. split; [ exact H | ].
  rewrite H. destruct (formatInsight env _ _); discriminate.
Qed.

End Registry.

(** ** Layout shifts *)

Section LayoutShifts.

Lemma push_events (es : list DevTools.LayoutShiftEvent)
    (acc : list LayoutShiftData) :
  fold_left (fun acc event => (acc ++ [layoutShift_of event])%list) es acc
  = (acc ++ map layoutShift_of es)%list.
Proof.
  revert acc. induction es as [| e es IH]; intros acc; cbn.
  - symmetry. apply app_nil_r.
  - rewrite IH, <- app_assoc. reflexivity.
Qed.

Lemma getLayoutShifts_clusters_flat (clusters : list DevTools.Cluster)
    (acc : list LayoutShiftData) :
  getLayoutShifts_clusters clusters acc
  = (acc ++ flattened_shifts clusters)%list.
Proof.
  revert acc. induction clusters as [| c cs IH]; intros acc; cbn.
  - symmetry. apply app_nil_r.
  - rewrite IH, push_events, <- app_assoc. reflexivity.
Qed.

(** The list is flattened cluster after cluster, event after event. *)
Lemma getLayoutShifts_flat (result : TraceResult) :
  getLayoutShifts result
  = flattened_shifts (DevTools.LayoutShifts_clusters (parsedTrace result)).
Proof.
  unfold getLayoutShifts. apply getLayoutShifts_clusters_flat.
Qed.

(** [find] returns the first element that satisfies the test. *)
Lemma find_first {A} (p : A -> bool) (l : list A) :
  match find p l with
  | Some x =>
      exists l1 l2,
        l = (l1 ++ x :: l2)%list
        /\ p x = true
        /\ forall y, In y l1 -> p y = false
  | None => forall y, In y l -> p y = false
  end.
Proof.
  induction l as [| a l IH]; cbn.
  - intros y [].
  - destruct (p a) eqn:Ha.
    + exists [], l. repeat split; [ assumption | intros y [] ].
    + destruct (find p l) as [x |].
      * destruct IH as (l1 & l2 & -> & Hx & Hbefore).
        exists (a :: l1), l2. repeat split; [ assumption | ].
        intros y [<- | Hy]; [ assumption | apply Hbefore, Hy ].
      * intros y [<- | Hy]; [ assumption | apply IH, Hy ].
Qed.

(** C8. [getLayoutShiftImages result t] looks through the shifts of
    [getLayoutShifts result], which lists the events cluster after
    cluster and, within a cluster, in order.  It returns the images of
    the first shift whose [ts === t], and [null] when no shift has this
    timestamp. *)
Theorem getLayoutShiftImages_first_match
    (result : TraceResult) (t : number) :
  getLayoutShifts result
  = flattened_shifts (DevTools.LayoutShifts_clusters (parsedTrace result))
  /\ match getLayoutShiftImages result t with
     | Some imgs =>
         exists earlier s later,
           getLayoutShifts result = (earlier ++ s :: later)%list
           /\ strict_eq (ts s) t = true
           /\ (forall x, In x earlier -> strict_eq (ts x) t = false)
           /\ imgs = images s
     | None =>
         forall x, In x (getLayoutShifts result) ->
                   strict_eq (ts x) t = false
     end.
Proof.
  split; [ apply getLayoutShifts_flat | ].
  unfold getLayoutShiftImages.
  pose proof (find_first (fun s => strict_eq (ts s) t)
                (getLayoutShifts result)) as H.
  destruct (find _ (getLayoutShifts result)) as [s |].
  - destruct H as (l1 & l2 & Hl & Hs & Hbefore).
    exists l1, s, l2. repeat split; assumption.
  - exact H.
Qed.

(** The specification's example: the timestamp [1234] occurs in the
    first and in the second cluster; the images are those of the
    first. *)
Example images_at_1234 :
  getLayoutShiftImages Sample.shift_recording 1234%float
  = Some {| before := Some "b"; after := None |}
  /\ getLayoutShiftImages Sample.shift_recording 99%float = None.
Proof. split; reflexivity. Qed.

End LayoutShifts.

(** ** The search of the accessibility tree *)

Section TreeSearch.

(** Induction on a tree with the hypothesis for every child. *)
Section Induction.

Variable P : AXNode -> Prop.
Hypothesis leaf : forall role id, P (AX role id None).
Hypothesis inner :
  forall role id cs, Forall P cs -> P (AX role id (Some cs)).

Fixpoint AXNode_induction (node : AXNode) : P node :=
  match node with
  | AX role id None => leaf role id
  | AX role id (Some cs) =>
      inner role id cs
        ((fix all (l : list AXNode) : Forall P l :=
            match l with
            | [] => Forall_nil P
            | c :: rest => Forall_cons c (AXNode_induction c) (all rest)
            end) cs)
  end.

End Induction.

Variable target : number.

Lemma find_app_first {A} (p : A -> bool) (l1 l2 : list A) :
  find p (l1 ++ l2)
  = match find p l1 with
    | Some x => Some x
    | None => find p l2
    end.
Proof.
  induction l1 as [| a l1 IH]; cbn; [ reflexivity | ].
  destruct (p a); [ reflexivity | exact IH ].
Qed.

(** The loop over the children, under the hypothesis for each child. *)
Lemma children_loop (cs : list AXNode) :
  Forall
    (fun c => findAXNode c target = find (matches target) (preorder c)) cs ->
  (fix loop (l : list AXNode) : option AXNode :=
     match l with
     | [] => None
     | child :: rest =>
         match findAXNode child target with
         | Some found => Some found
         | None => loop rest
         end
     end) cs
  = find (matches target) (flat_map preorder cs).
Proof.
  induction 1 as [| c rest Hc _ IH]; [ reflexivity | ].
  cbn [flat_map]. rewrite find_app_first, <- Hc, IH. reflexivity.
Qed.

Lemma findAXNode_is_find (node : AXNode) :
  findAXNode node target = find (matches target) (preorder node).
Proof.
  induction node as [role id | role id cs IH] using AXNode_induction.
  - cbn [findAXNode preorder find matches].
    destruct id as [i |]; [ destruct (strict_eq i target) | ]; reflexivity.
  - cbn [findAXNode preorder find matches].
    rewrite (children_loop cs IH).
    destruct id as [i |]; [ destruct (strict_eq i target) | ]; reflexivity.
Qed.

Lemma upto_none {A} (p : A -> bool) (l : list A) :
  find p l = None -> upto p l = l.
Proof.
  induction l as [| a l IH]; cbn; [ reflexivity | ].
  destruct (p a); [ discriminate | ].
  intros H. rewrite (IH H). reflexivity.
Qed.

Lemma upto_app {A} (p : A -> bool) (l1 l2 : list A) :
  upto p (l1 ++ l2)
  = match find p l1 with
    | Some _ => upto p l1
    | None => (l1 ++ upto p l2)%list
    end.
Proof.
  induction l1 as [| a l1 IH]; cbn; [ reflexivity | ].
  destruct (p a); [ reflexivity | ].
  rewrite IH. destruct (find p l1); reflexivity.
Qed.

Lemma upto_prefix {A} (p : A -> bool) (l : list A) :
  exists rest, l = (upto p l ++ rest)%list.
Proof.
  induction l as [| a l [rest IH]]; cbn.
  - exists []. reflexivity.
  - destruct (p a).
    + exists l. reflexivity.
    + exists rest. cbn. f_equal. exact IH.
Qed.

(** The visits of the loop over the children, under the hypothesis for
    each child. *)
Lemma children_visits (cs : list AXNode) :
  Forall
    (fun c => visits c target = upto (matches target) (preorder c)) cs ->
  (fix loop (l : list AXNode) : list AXNode :=
     match l with
     | [] => []
     | child :: rest =>
         (visits child target ++
            match findAXNode child target with
            | Some _ => []
            | None => loop rest
            end)%list
     end) cs
  = upto (matches target) (flat_map preorder cs).
Proof.
  induction 1 as [| c rest Hc _ IH]; [ reflexivity | ].
  cbn [flat_map]. rewrite upto_app, Hc, IH, findAXNode_is_find.
  destruct (find (matches target) (preorder c)) as [found |] eqn:Hfind.
  - apply app_nil_r.
  - rewrite (upto_none _ _ Hfind). reflexivity.
Qed.

Lemma visits_upto (node : AXNode) :
  visits node target = upto (matches target) (preorder node).
Proof.
  induction node as [role id | role id cs IH] using AXNode_induction.
  - cbn [preorder visits upto matches].
    destruct id as [i |]; [ destruct (strict_eq i target) | ]; reflexivity.
  - cbn [preorder visits upto matches].
    rewrite (children_visits cs IH).
    destruct id as [i |]; [ destruct (strict_eq i target) | ]; reflexivity.
Qed.

(** C9. [findAXNode node target] returns the first node, in pre-order
    (a node before its children, the children from the first to the
    last), whose [backendNodeId === target], and [null] when the tree has
    none.  The nodes the search is called on are the pre-order up to the
    node it returns: an initial segment of the pre-order, so that no node
    is visited twice. *)
Theorem findAXNode_first_in_preorder (node : AXNode) :
  findAXNode node target = find (matches target) (preorder node)
  /\ visits node target = upto (matches target) (preorder node)
  /\ (exists unvisited,
        preorder node = (visits node target ++ unvisited)%list)
  /\ match findAXNode node target with
     | Some found =>
         exists earlier later,
           preorder node = (earlier ++ found :: later)%list
           /\ matches target found = true
           /\ forall n, In n earlier -> matches target n = false
     | None => forall n, In n (preorder node) -> matches target n = false
     end.
Proof.
  split; [ apply findAXNode_is_find | ].
  split; [ apply visits_upto | ].
  split.
  - rewrite visits_upto. apply upto_prefix.
  - rewrite findAXNode_is_find.
    apply (find_first (matches target) (preorder node)).
Qed.

End TreeSearch.

(** The specification's example: in the tree
    [{id:1, children:[{id:2},{id:3,children:[{id:4}]}]}] the search for
    [4] returns that node after visiting the four nodes once each, and the
    search for [99] returns [null]. *)
Example search_sample_tree :
  findAXNode Sample.tree 4%float = Some Sample.node4
  /\ visits Sample.tree 4%float = preorder Sample.tree
  /\ List.length (preorder Sample.tree) = 4%nat
  /\ findAXNode Sample.tree 99%float = None.
Proof. repeat split. Qed.

(** ** The statements on the sample data *)

(** A start request while [Fixture.recording] is active. *)
Lemma startTrace_rejected_sample :
  isRunningPerformanceTrace Fixture.recording = true
  /\ let (completion, w') :=
       startTrace Fixture.env Sample.reload_params Fixture.recording in
     completion = Normal tt
     /\ isRunningPerformanceTrace w' = true
     /\ recordedTraces w' = recordedTraces Fixture.recording
     /\ calls w' = calls Fixture.recording
     /\ responseLines w'
        = (responseLines Fixture.recording ++ [already_running_message])%list.
Proof.
  split.
  - reflexivity.
  - apply (startTrace_rejected_while_recording Fixture.env Sample.reload_params
             Fixture.recording).
    reflexivity.
Defined.

(** A hard failure of the stop path: [tracing.stop] throws, the error is
    reported in the response, and the flag is cleared. *)
Example stop_after_hard_failure :
  stopTracingAndAppendOutput (Sample.failing_stop Fixture.env) None
    Fixture.recording
  = (Normal tt,
     {| calls :=
          [ TracingStart categories; TracingStop;
            Logger "Error stopping performance trace: Tracing is not started" ];
        isRunningPerformanceTrace := false;
        recordedTraces := [];
        responseLines :=
          [ "An error occurred generating the response for this trace:";
            "Tracing is not started" ] |}).
Proof. reflexivity. Qed.

(** C3, as stated, fails: for an absent buffer the result is the error
    value, but the engine has been called: the history, empty before, holds
    the reset. *)
Lemma absent_buffer_resets_engine :
  parseRawTraceBuffer Fixture.env None Fixture.idle
  = (Normal (ParseError "No buffer was provided."),
     {| calls := [EngineReset];
        isRunningPerformanceTrace := false;
        recordedTraces := [];
        responseLines := [] |})
  /\ engine_calls (calls Fixture.idle) = []
  /\ engine_calls
       (calls (snd (parseRawTraceBuffer Fixture.env None Fixture.idle)))
     = [EngineReset].
Proof. repeat split. Qed.

(** An empty byte array: its text is empty. *)
Lemma parse_empty_input_sample :
  (forall b, Some [] = Some b ->
             TextDecoder_decode Fixture.env b = Normal "")
  /\ let (completion, w') :=
       parseRawTraceBuffer Fixture.env (Some []) Fixture.idle in
     calls w' = (calls Fixture.idle ++ [EngineReset])%list
     /\ isRunningPerformanceTrace w' = isRunningPerformanceTrace Fixture.idle
     /\ recordedTraces w' = recordedTraces Fixture.idle
     /\ responseLines w' = responseLines Fixture.idle
     /\ completion =
          match engine_resetProcessor Fixture.env (calls Fixture.idle) with
          | Normal _ =>
              Normal
                (ParseError
                   "Decoding the trace buffer returned an empty string.")
          | Throw e => Throw e
          end.
Proof.
  assert (Hempty :
    forall b, Some [] = Some b ->
              TextDecoder_decode Fixture.env b = Normal "").
  { intros b Hb. injection Hb as <-. reflexivity. }
  split.
  - exact Hempty.
  - exact (parse_empty_input Fixture.env (Some []) Fixture.idle Hempty).
Defined.

Lemma both_wire_shapes_sample :
  rejects_empty_text Fixture.env
  /\ TextDecoder_decode Fixture.env
       (list_byte_of_string Sample.bare_array_text)
     = Normal Sample.bare_array_text
  /\ JSON_parse Fixture.env Sample.bare_array_text
     = Normal (JArray Sample.two_events)
  /\ TextDecoder_decode Fixture.env
       (list_byte_of_string Sample.traceEvents_text)
     = Normal Sample.traceEvents_text
  /\ JSON_parse Fixture.env Sample.traceEvents_text
     = Normal (JObject [("traceEvents", JArray Sample.two_events)])
  /\ parseRawTraceBuffer Fixture.env
       (Some (list_byte_of_string Sample.bare_array_text)) Fixture.idle
     = parseRawTraceBuffer Fixture.env
         (Some (list_byte_of_string Sample.traceEvents_text)) Fixture.idle
  /\ fed_events
       (calls
          (snd (parseRawTraceBuffer Fixture.env
                  (Some (list_byte_of_string Sample.traceEvents_text))
                  Fixture.idle)))
     = [Some (JArray Sample.two_events)].
Proof.
  assert (Hrej : rejects_empty_text Fixture.env)
    by (eexists; reflexivity).
  assert (T1 :
    TextDecoder_decode Fixture.env
      (list_byte_of_string Sample.bare_array_text)
    = Normal Sample.bare_array_text) by reflexivity.
  assert (H1 :
    JSON_parse Fixture.env Sample.bare_array_text
    = Normal (JArray Sample.two_events)) by reflexivity.
  assert (T2 :
    TextDecoder_decode Fixture.env
      (list_byte_of_string Sample.traceEvents_text)
    = Normal Sample.traceEvents_text) by reflexivity.
  assert (H2 :
    JSON_parse Fixture.env Sample.traceEvents_text
    = Normal (JObject [("traceEvents", JArray Sample.two_events)]))
    by reflexivity.
  destruct (both_wire_shapes_agree Fixture.env Sample.two_events
              [("traceEvents", JArray Sample.two_events)]
              (list_byte_of_string Sample.bare_array_text)
              (list_byte_of_string Sample.traceEvents_text)
              Sample.bare_array_text Sample.traceEvents_text
              Fixture.idle Hrej T1 H1 T2 H2 eq_refl) as [Hsame Hfed].
  destruct (Hfed eq_refl) as [_ Hfed2].
  repeat split; assumption.
Defined.

(** The breakdown of [Sample.two_phase_recording]. *)
Lemma lcp_phases_sample :
  insights Sample.two_phase_recording
  = Some [("NAVIGATION_0",
           Sample.set_of
             (Sample.lcp_insight (Some 120%float) (Some 7%float)
                (Some Sample.two_subparts)))]
  /\ exists d,
       getLCPBreakdownData Sample.two_phase_recording "NAVIGATION_0" = Some d
       /\ phases d = expected_phases (Some Sample.two_subparts).
Proof.
  split.
  - reflexivity.
  - exact (lcp_phases_follow_subparts Sample.two_phase_recording
             "NAVIGATION_0" _ _ _ eq_refl eq_refl eq_refl).
Defined.

(** Over the insight sets [A(lcpMs=0), B(lcpMs=120)], the breakdown
    selected is the one of [B]. *)
Lemma selection_picks_last_positive_sample :
  ids_nonempty Sample.recording_A_B = true
  /\ last_positive_set Sample.recording_A_B = Some "B"
  /\ exists d,
       getLCPBreakdownData Sample.recording_A_B "B" = Some d
       /\ gt (lcpMs d) 0%float = true
       /\ ((exists shot,
              fst (getLCPDataWithScreenshot Fixture.env
                     Sample.recording_A_B Fixture.idle)
              = Normal (Some {| lcpData := d; screenshot := shot |}))
           \/ (exists e,
                 context_getSelectedPage Fixture.env (calls Fixture.idle)
                 = Throw e
                 /\ fst (getLCPDataWithScreenshot Fixture.env
                           Sample.recording_A_B Fixture.idle)
                    = Throw e)).
Proof.
  split; [ reflexivity | split; [ reflexivity | ] ].
  exact (selection_picks_last_positive Fixture.env Sample.recording_A_B
           Fixture.idle eq_refl).
Defined.

(** The LCP node of [Sample.recording_node_zero] has the id [0]. *)
Lemma zero_backend_node_sample :
  finalInsightSetId Sample.recording_node_zero = Some "NAVIGATION_0"
  /\ option_map backendNodeId
       (getLCPBreakdownData Sample.recording_node_zero "NAVIGATION_0")
     = Some (Some 0%float)
  /\ getLCPDataWithScreenshot Fixture.env Sample.recording_node_zero
       Fixture.idle
     = (Normal
          (Some {| lcpData := {| lcpMs := 120%float;
                                 backendNodeId := Some 0%float;
                                 phases := [] |};
                   screenshot := None |}),
        Fixture.idle).
Proof.
  split; [ reflexivity | ]. split; [ reflexivity | ].
  exact (zero_backend_node_skips_screenshot Fixture.env
           Sample.recording_node_zero "NAVIGATION_0"
           {| lcpMs := 120%float;
              backendNodeId := Some 0%float;
              phases := [] |}
           0%float Fixture.idle
           eq_refl eq_refl eq_refl eq_refl eq_refl).
Defined.

(** * Further properties *)

(** ** The trace adapter, beyond the input errors *)

Section AdapterProtocol.

Variable env : Env.

Ltac run_adapter :=
  unfold parseRawTraceBuffer, try_catch, bind, call, lift, ret, logger;
  cbn.

(** X2. The decoder runs before the [try] block, everything after it
    inside: when [engine.resetProcessor] returns and the decoder returns
    for the buffer (or there is no buffer), [parseRawTraceBuffer] returns
    too, whatever [JSON.parse] and the engine do; an exception of the
    decoder is the one failure after the reset that escapes, with nothing
    logged and the engine not asked to parse. *)
Theorem parse_returns_after_reset (buffer : option bytes) (w : World) :
  engine_resetProcessor env (calls w) = Normal tt ->
  match buffer with
  | Some b =>
      match TextDecoder_decode env b with
      | Normal _ =>
          exists outcome,
            fst (parseRawTraceBuffer env buffer w) = Normal outcome
      | Throw e =>
          parseRawTraceBuffer env buffer w
          = (Throw e, with_calls w (calls w ++ [EngineReset]))
      end
  | None =>
      exists outcome,
        fst (parseRawTraceBuffer env buffer w) = Normal outcome
  end.
Proof.
  intros Hreset. run_adapter. rewrite Hreset. cbn.
  destruct buffer as [b |]; cbn; [ | eexists; reflexivity ].
  destruct (TextDecoder_decode env b) as [text | e]; cbn;
    [ | reflexivity ].
  destruct (truthy_string text); cbn; [ | eexists; reflexivity ].
  destruct (JSON_parse env text) as [d | e]; cbn;
    [ | eexists; reflexivity ].
  destruct (traceEvents_of d) as [ev | e]; cbn; [ | eexists; reflexivity ].
  destruct (engine_parse env ev _) as [[] | e]; cbn;
    [ | eexists; reflexivity ].
  destruct (engine_parsedTrace env _) as [[pt |] | e]; cbn;
    eexists; reflexivity.
Qed.

(** The calls of the adapter: the reset first, then nothing, or a logged
    failure, or [parse] followed by a logged failure or by
    [parsedTrace], itself followed by nothing or a logged failure; the
    context and the response are left alone. *)
Lemma parse_frame (buffer : option bytes) (w : World) :
  let w' := snd (parseRawTraceBuffer env buffer w) in
  same_context w w'
  /\ exists added,
       calls w' = (calls w ++ EngineReset :: added)%list
       /\ (added = []
           \/ (exists e, added = [parse_error_log e])
           \/ (exists ev e, added = [EngineParse ev; parse_error_log e])
           \/ (exists ev, added = [EngineParse ev; EngineParsedTrace])
           \/ (exists ev e,
                 added = [EngineParse ev; EngineParsedTrace;
                          parse_error_log e])).
Proof.
  cbv zeta. unfold same_context. run_adapter.
  destruct (engine_resetProcessor env (calls w)) as [[] | e]; cbn.
  2: { repeat split. exists []. auto. }
  destruct buffer as [b |]; cbn.
  2: { repeat split. exists []. auto. }
  destruct (TextDecoder_decode env b) as [text | e]; cbn.
  2: { repeat split. exists []. auto. }
  destruct (truthy_string text); cbn.
  2: { repeat split. exists []. auto. }
  destruct (JSON_parse env text) as [d | e]; cbn.
  2: { repeat split. exists [parse_error_log e].
       rewrite <- app_assoc. split; [ reflexivity | eauto ]. }
  destruct (traceEvents_of d) as [ev | e]; cbn.
  2: { repeat split. exists [parse_error_log e].
       rewrite <- app_assoc. split; [ reflexivity | eauto ]. }
  destruct (engine_parse env ev _) as [[] | e]; cbn.
  2: { repeat split. exists [EngineParse ev; parse_error_log e].
       rewrite <- !app_assoc. split; [ reflexivity | eauto 6 ]. }
  destruct (engine_parsedTrace env _) as [[pt |] | e]; cbn; repeat split.
  - exists [EngineParse ev; EngineParsedTrace].
    rewrite <- !app_assoc. split; [ reflexivity | eauto 6 ].
  - exists [EngineParse ev; EngineParsedTrace].
    rewrite <- !app_assoc. split; [ reflexivity | eauto 6 ].
  - exists [EngineParse ev; EngineParsedTrace; parse_error_log e].
    rewrite <- !app_assoc. split; [ reflexivity | eauto 8 ].
Qed.

(** X1. The adapter leaves the recording flag, the recorded traces and the
    response alone, and it drives the engine by one protocol: one reset,
    then at most one [parse], then at most one [parsedTrace], in this
    order.  [parse] is never called before the reset nor twice, and
    [parsedTrace] never without a [parse] before it. *)
Theorem parse_protocol (buffer : option bytes) (w : World) :
  let w' := snd (parseRawTraceBuffer env buffer w) in
  same_context w w'
  /\ exists ev,
       engine_calls (calls w')
       = (engine_calls (calls w) ++ [EngineReset])%list
       \/ engine_calls (calls w')
          = (engine_calls (calls w) ++ [EngineReset; EngineParse ev])%list
       \/ engine_calls (calls w')
          = (engine_calls (calls w)
             ++ [EngineReset; EngineParse ev; EngineParsedTrace])%list.
Proof.
  cbv zeta.
  destruct (parse_frame buffer w) as (Hctx & added & Hcalls & Hshape).
  split; [ exact Hctx | ].
  rewrite Hcalls. unfold engine_calls. rewrite filter_app.
  destruct Hshape as [-> | [(e & ->) | [(ev & e & ->) | [(ev & ->) |
                     (ev & e & ->)]]]]; cbn.
  - exists None. left. reflexivity.
  - exists None. left. reflexivity.
  - exists ev. right. left. reflexivity.
  - exists ev. right. right. reflexivity.
  - exists ev. right. right. reflexivity.
Qed.

(** X4. A text that [JSON.parse] rejects: the result is the error value with
    the text of the exception, the failure is logged, and the engine is
    not asked to parse. *)
Theorem parse_malformed_text
    (b : bytes) (text : string) (e : Thrown) (w : World) :
  engine_resetProcessor env (calls w) = Normal tt ->
  TextDecoder_decode env b = Normal text ->
  truthy_string text = true ->
  JSON_parse env text = Throw e ->
  parseRawTraceBuffer env (Some b) w
  = (Normal (ParseError (errorText e)),
     with_calls w (calls w ++ [EngineReset; parse_error_log e])).
Proof.
  intros Hreset Hdecode Htext Hparse. run_adapter.
  rewrite Hreset. cbn. rewrite Hdecode. cbn. rewrite Htext. cbn.
  rewrite Hparse. cbn.
  rewrite <- app_assoc. reflexivity.
Qed.

(** X3. A success is what the engine handed out: the result holds the parsed
    trace that [engine.parsedTrace] returned after the reset and the
    parse, with that trace's own insights, and nothing was logged. *)
Theorem parse_success_is_engine_trace
    (buffer : option bytes) (result : TraceResult) (w w' : World) :
  parseRawTraceBuffer env buffer w = (Normal (Success result), w') ->
  insights result = DevTools.parsed_insights (parsedTrace result)
  /\ exists ev,
       calls w' = (calls w ++ [EngineReset; EngineParse ev;
                               EngineParsedTrace])%list
       /\ engine_parsedTrace env (calls w ++ [EngineReset; EngineParse ev])
          = Normal (Some (parsedTrace result)).
Proof.
  run_adapter.
  destruct (engine_resetProcessor env (calls w)) as [[] | e]; cbn;
    [ | discriminate ].
  destruct buffer as [b |]; cbn; [ | discriminate ].
  destruct (TextDecoder_decode env b) as [text | e]; cbn;
    [ | discriminate ].
  destruct (truthy_string text); cbn; [ | discriminate ].
  destruct (JSON_parse env text) as [d | e]; cbn; [ | discriminate ].
  destruct (traceEvents_of d) as [ev | e]; cbn; [ | discriminate ].
  destruct (engine_parse env ev _) as [[] | e]; cbn; [ | discriminate ].
  rewrite <- !app_assoc. cbn.
  destruct (engine_parsedTrace env _) as [[pt |] | e] eqn:Hpt; cbn;
    try discriminate.
  intros H. injection H as <- <-. cbn.
  split; [ reflexivity | ].
  exists ev. split; [ reflexivity | exact Hpt ].
Qed.

(** X5. The shape of the JSON value is not checked: for an object without a
    [traceEvents] member (and for a number, a string or a boolean),
    [engine.parse] is called with [undefined]. *)
Theorem parse_feeds_undefined
    (b : bytes) (text : string) (data : JSON) (w : World) :
  engine_resetProcessor env (calls w) = Normal tt ->
  TextDecoder_decode env b = Normal text ->
  truthy_string text = true ->
  JSON_parse env text = Normal data ->
  traceEvents_of data = Normal None ->
  fed_events (calls (snd (parseRawTraceBuffer env (Some b) w)))
  = (fed_events (calls w) ++ [None])%list.
Proof.
  intros Hreset Hdecode Htext Hparse Hevents. run_adapter.
  rewrite Hreset. cbn. rewrite Hdecode. cbn. rewrite Htext. cbn.
  rewrite Hparse. cbn. rewrite Hevents. cbn.
  destruct (engine_parse env None _) as [[] | e]; cbn.
  2: { rewrite !fed_events_app. cbn. rewrite ?app_nil_r. reflexivity. }
  destruct (engine_parsedTrace env _) as [[pt |] | e]; cbn;
    rewrite !fed_events_app; cbn; rewrite ?app_nil_r; reflexivity.
Qed.

(** X6. When the engine has no parsed trace after a parse that returned, the
    result is the error value "No parsed trace was returned from the trace
    engine." and nothing is logged. *)
Theorem parse_without_trace
    (b : bytes) (text : string) (data : JSON) (ev : option JSON)
    (w : World) :
  engine_resetProcessor env (calls w) = Normal tt ->
  TextDecoder_decode env b = Normal text ->
  truthy_string text = true ->
  JSON_parse env text = Normal data ->
  traceEvents_of data = Normal ev ->
  engine_parse env ev (calls w ++ [EngineReset]) = Normal tt ->
  engine_parsedTrace env (calls w ++ [EngineReset; EngineParse ev])
  = Normal None ->
  parseRawTraceBuffer env (Some b) w
  = (Normal
       (ParseError "No parsed trace was returned from the trace engine."),
     with_calls w
       (calls w ++ [EngineReset; EngineParse ev; EngineParsedTrace])).
Proof.
  intros Hreset Hdecode Htext Hparse Hevents Hfeed Htrace. run_adapter.
  rewrite Hreset. cbn. rewrite Hdecode. cbn. rewrite Htext. cbn.
  rewrite Hparse. cbn. rewrite Hevents. cbn. rewrite Hfeed. cbn.
  rewrite <- !app_assoc. cbn. rewrite Htrace. reflexivity.
Qed.

End AdapterProtocol.

(** ** Insight lookup and LCP breakdown, beyond the claims *)

Section Lookup.

Variable env : Env.

(** X7. An output is always the formatter's text for a truthy property of
    the model of the insight set that the id names. *)
Theorem output_comes_from_formatter
    (result : TraceResult) (insightSetId insightName text : string) :
  getInsightOutput env result insightSetId insightName
  = Normal (output text) ->
  exists sets insightSet,
    insights result = Some sets
    /\ DevTools.Map_get sets insightSetId = Some insightSet
    /\ has_property (DevTools.model insightSet) insightName = true
    /\ truthy_prop (get_property (DevTools.model insightSet) insightName)
       = true
    /\ formatInsight env (parsedTrace result)
         (get_property (DevTools.model insightSet) insightName)
       = Normal text.
Proof.
  unfold getInsightOutput.
  destruct (insights result) as [sets |]; [ | discriminate ].
  destruct (DevTools.Map_get sets insightSetId) as [insightSet |] eqn:Hset;
    [ | discriminate ].
  destruct (has_property (DevTools.model insightSet) insightName) eqn:Hin;
    [ | discriminate ].
  destruct (truthy_prop (get_property (DevTools.model insightSet) insightName))
    eqn:Htruthy; cbn; [ | discriminate ].
  destruct (formatInsight env _ _) as [t | e] eqn:Hformat; [ | discriminate ].
  intros H. injection H as ->.
  exists sets, insightSet. repeat split; assumption.
Qed.

(** [model.LCPBreakdown] reads the own property of that name. *)
Lemma model_LCPBreakdown_own (o : DevTools.ModelObject) :
  model_LCPBreakdown o
  = match assoc "LCPBreakdown" (DevTools.own o) with
    | Some (Some m) => Some m
    | Some None | None => None
    end.
Proof.
  unfold model_LCPBreakdown, get_property.
  destruct (assoc "LCPBreakdown" (DevTools.own o)) as [[m |] |]; reflexivity.
Qed.

(** X9. [getLCPBreakdownData] returns [null] in three cases and no other:
    the result has no insights, the id names no insight set, or the model
    of the set has no [LCPBreakdown] (no such key, or a nullish value). *)
Theorem getLCPBreakdownData_null_iff
    (result : TraceResult) (insightSetId : string) :
  getLCPBreakdownData result insightSetId = None
  <-> (insights result = None
       \/ (exists sets,
             insights result = Some sets
             /\ DevTools.Map_get sets insightSetId = None)
       \/ (exists sets insightSet,
             insights result = Some sets
             /\ DevTools.Map_get sets insightSetId = Some insightSet
             /\ (assoc "LCPBreakdown"
                   (DevTools.own (DevTools.model insightSet)) = None
                 \/ assoc "LCPBreakdown"
                      (DevTools.own (DevTools.model insightSet))
                    = Some None))).
Proof.
  unfold getLCPBreakdownData.
  destruct (insights result) as [sets |]; [ | tauto ].
  destruct (DevTools.Map_get sets insightSetId) as [insightSet |] eqn:Hset.
  2: { split; [ intros _ | reflexivity ]. right. left. eauto. }
  rewrite model_LCPBreakdown_own.
  destruct (assoc "LCPBreakdown" (DevTools.own (DevTools.model insightSet)))
    as [[m |] |] eqn:Hown.
  - split; [ discriminate | ].
    intros [H | [(s & H & H') | (s & i & H & H' & [H'' | H''])]];
      try discriminate.
    + injection H as <-. rewrite Hset in H'. discriminate.
    + injection H as <-. rewrite Hset in H'. injection H' as <-.
      rewrite Hown in H''. discriminate.
    + injection H as <-. rewrite Hset in H'. injection H' as <-.
      rewrite Hown in H''. discriminate.
  - split; [ intros _ | reflexivity ].
    right. right. exists sets, insightSet. auto.
  - split; [ intros _ | reflexivity ].
    right. right. exists sets, insightSet. auto.
Qed.

(** A breakdown, when there is one, is built from the insight of its
    set. *)
Lemma getLCPBreakdownData_some
    (result : TraceResult) (insightSetId : string) (d : LCPBreakdownData) :
  getLCPBreakdownData result insightSetId = Some d ->
  exists sets insightSet lcpInsight,
    insights result = Some sets
    /\ DevTools.Map_get sets insightSetId = Some insightSet
    /\ model_LCPBreakdown (DevTools.model insightSet) = Some lcpInsight
    /\ lcpMs d = nullish (DevTools.lcpMs lcpInsight) 0%float
    /\ backendNodeId d = lcpEvent_nodeId (DevTools.lcpEvent lcpInsight)
    /\ phases d = expected_phases (DevTools.subparts lcpInsight).
Proof.
  intros Hd.
  unfold getLCPBreakdownData in Hd.
  destruct (insights result) as [sets |] eqn:Hsets; [ | discriminate ].
  destruct (DevTools.Map_get sets insightSetId) as [insightSet |] eqn:Hset;
    [ | discriminate ].
  destruct (model_LCPBreakdown (DevTools.model insightSet))
    as [lcpInsight |] eqn:Hlcp; [ | discriminate ].
  injection Hd as <-. cbn.
  exists sets, insightSet, lcpInsight.
  repeat split; try assumption; try reflexivity.
  destruct (DevTools.subparts lcpInsight) as [s |];
    [ apply pushes_expected | reflexivity ].
Qed.

(** X10. The phase list of any breakdown names each of the four phases at
    most once and in the fixed order: its names are the four names
    restricted to those that occur in it; it has at most four entries. *)
Theorem phases_in_fixed_order
    (result : TraceResult) (insightSetId : string) (d : LCPBreakdownData) :
  getLCPBreakdownData result insightSetId = Some d ->
  map name (phases d)
  = filter
      (fun n => existsb (String.eqb n) (map name (phases d)))
      phase_names
  /\ (List.length (phases d) <= 4)%nat.
Proof.
  intros Hd.
  destruct (getLCPBreakdownData_some _ _ _ Hd)
    as (sets & insightSet & lcpInsight & _ & _ & _ & _ & _ & ->).
  destruct (DevTools.subparts lcpInsight) as [[[a |] [b |] [c |] [e |]] |];
    split; vm_compute; try reflexivity; repeat constructor.
Qed.

(** X11. An LCP insight without an [lcpMs] value counts as [0]: its breakdown
    is returned with [lcpMs = 0], and the display selection never picks
    its insight set. *)
Theorem set_without_lcpMs_never_selected
    (result : TraceResult) (insightSetId : string)
    (sets : DevTools.TraceInsightSets) (insightSet : DevTools.InsightSet)
    (lcpInsight : DevTools.InsightModel) :
  insights result = Some sets ->
  DevTools.Map_get sets insightSetId = Some insightSet ->
  model_LCPBreakdown (DevTools.model insightSet) = Some lcpInsight ->
  DevTools.lcpMs lcpInsight = None ->
  (exists d,
     getLCPBreakdownData result insightSetId = Some d
     /\ lcpMs d = 0%float)
  /\ finalInsightSetId result <> Some insightSetId.
Proof.
  intros Hsets Hset Hlcp Hms.
  assert (Hd : exists d,
             getLCPBreakdownData result insightSetId = Some d
             /\ lcpMs d = 0%float).
  { unfold getLCPBreakdownData. rewrite Hsets, Hset, Hlcp, Hms.
    eexists. split; reflexivity. }
  split; [ exact Hd | ].
  destruct Hd as (d & Hd & Hzero).
  unfold finalInsightSetId. rewrite Hsets, lastInsightSetWithLCP_find.
  intros Hfind. apply find_some in Hfind. destruct Hfind as [_ Hpos].
  unfold has_positive_lcp in Hpos. rewrite Hd, Hzero in Hpos.
  discriminate.
Qed.

(** X12. The id that the backward loop selects is the last key of the map, in
    insertion order, whose insight set has a breakdown with [lcpMs > 0];
    it selects nothing exactly when no key has one. *)
Theorem finalInsightSetId_is_last_positive (result : TraceResult) :
  match finalInsightSetId result with
  | Some id =>
      exists sets earlier later,
        insights result = Some sets
        /\ DevTools.Map_keys sets = (earlier ++ id :: later)%list
        /\ has_positive_lcp result id = true
        /\ forall x, In x later -> has_positive_lcp result x = false
  | None =>
      forall sets, insights result = Some sets ->
      forall x, In x (DevTools.Map_keys sets) ->
                has_positive_lcp result x = false
  end.
Proof.
  unfold finalInsightSetId.
  destruct (insights result) as [sets |]; [ | discriminate ].
  rewrite lastInsightSetWithLCP_find.
  pose proof (find_first (has_positive_lcp result)
                (rev (DevTools.Map_keys sets))) as H.
  destruct (find _ (rev (DevTools.Map_keys sets))) as [id |].
  - destruct H as (l1 & l2 & Hrev & Hpos & Hbefore).
    exists sets, (rev l2), (rev l1). repeat split; try assumption.
    + rewrite <- (rev_involutive (DevTools.Map_keys sets)), Hrev.
      rewrite rev_app_distr. cbn. rewrite <- app_assoc. reflexivity.
    + intros x Hx. apply Hbefore. apply in_rev. exact Hx.
  - intros s Hs x Hx. injection Hs as <-.
    apply H. apply in_rev. rewrite rev_involutive. exact Hx.
Qed.

End Lookup.

(** ** The screenshot step *)

Section Screenshot.

Variable env : Env.

Ltac run_screenshot :=
  unfold takeScreenshot, try_catch, bind, call, ret, logger,
    context_getSelectedPage_;
  cbn.

(** What the guarded block does, whatever the browser answers: it
    completes normally as soon as the selected page is obtained, it leaves
    the context and the response alone, and the calls it adds are calls of
    the screenshot step, the accessibility snapshot first. *)
Lemma takeScreenshot_frame (target : number) (w : World) :
  let (completion, w') := takeScreenshot env target w in
  same_context w w'
  /\ (exists added,
        calls w' = (calls w ++ added)%list
        /\ forallb is_screenshot_step added = true)
  /\ (context_getSelectedPage env (calls w) = Normal tt ->
      exists shot, completion = Normal shot).
Proof.
  unfold same_context. run_screenshot.
  destruct (context_getSelectedPage env (calls w)) as [[] | e0]; cbn.
  2: { repeat split. exists []. rewrite app_nil_r. auto. discriminate. }
  destruct (accessibility_snapshot env (calls w)) as [[root |] | e]; cbn.
  2: { repeat split; eauto. }
  2: { repeat split; eauto. rewrite <- app_assoc. eauto. }
  destruct (findAXNode root target) as [node |]; cbn.
  2: { repeat split; eauto. }
  destruct (node_elementHandle env node _) as [[h |] | e]; cbn.
  2: { repeat split; eauto. rewrite <- app_assoc. eauto. }
  2: { repeat split; eauto. rewrite <- !app_assoc. eauto. }
  destruct (handle_screenshot env h _) as [buf | e]; cbn.
  2: { repeat split; eauto. rewrite <- !app_assoc. eauto. }
  destruct (handle_dispose env h _) as [[] | e]; cbn;
    repeat split; eauto; rewrite <- !app_assoc; eauto.
Qed.

(** X13. [getLCPDataWithScreenshot] reads the recording and looks at the
    page; it never changes the recording flag, the recorded traces or the
    response, and the calls it makes are those of the screenshot step: no
    tracing command, no navigation, no call to the engine. *)
Theorem getLCPDataWithScreenshot_frame (r : TraceResult) (w : World) :
  let w' := snd (getLCPDataWithScreenshot env r w) in
  same_context w w'
  /\ exists added,
       calls w' = (calls w ++ added)%list
       /\ forallb is_screenshot_step added = true.
Proof.
  cbv zeta.
  assert (Hsame : same_context w w /\
                  exists added, calls w = (calls w ++ added)%list
                                /\ forallb is_screenshot_step added = true).
  { split; [ repeat split | exists []; rewrite app_nil_r; auto ]. }
  unfold getLCPDataWithScreenshot.
  destruct (truthy_opt truthy_string (finalInsightSetId r)); cbn;
    [ | exact Hsame ].
  destruct (finalInsightSetId r) as [id |]; [ | exact Hsame ].
  destruct (getLCPBreakdownData r id) as [d |]; [ | exact Hsame ].
  unfold bind.
  destruct (truthy_opt truthy_number (backendNodeId d)); [ | exact Hsame ].
  destruct (backendNodeId d) as [target |]; [ | exact Hsame ].
  pose proof (takeScreenshot_frame target w) as H.
  destruct (takeScreenshot env target w) as [[shot | e] w'];
    destruct H as (Hctx & Hcalls & _); cbn; split; assumption.
Qed.

(** X14. A failure of the screenshot step does not take the breakdown away:
    once an insight set is selected and the selected page is obtained, the
    result is the breakdown of that set, with or without a screenshot,
    whatever the snapshot, the element handle, the screenshot and the
    dispose do. *)
Theorem lcp_data_survives_screenshot_failure
    (r : TraceResult) (id : string) (w : World) :
  finalInsightSetId r = Some id ->
  truthy_string id = true ->
  context_getSelectedPage env (calls w) = Normal tt ->
  exists d shot,
    getLCPBreakdownData r id = Some d
    /\ fst (getLCPDataWithScreenshot env r w)
       = Normal (Some {| lcpData := d; screenshot := shot |}).
Proof.
  intros Hfinal Hid Hpage.
  destruct (selection_returns_selected env r id w Hfinal Hid)
    as (d & _ & _ & Hd & _ & _).
  exists d.
  unfold getLCPDataWithScreenshot. rewrite Hfinal. cbn. rewrite Hid. cbn.
  rewrite Hd. unfold bind.
  destruct (truthy_opt truthy_number (backendNodeId d));
    [ | exists None; split; reflexivity ].
  destruct (backendNodeId d) as [target |];
    [ | exists None; split; reflexivity ].
  pose proof (takeScreenshot_frame target w) as H.
  destruct (takeScreenshot env target w) as [[shot | e] w'];
    destruct H as (_ & _ & Hnormal);
    destruct (Hnormal Hpage) as [s Hs]; [ | discriminate ].
  exists shot. split; reflexivity.
Qed.

(** X15. When [handle.dispose()] throws after the screenshot was taken, the
    screenshot is kept and the failure is logged. *)
Theorem dispose_failure_keeps_screenshot
    (target : number) (root node : AXNode) (h : Handle) (buf : bytes)
    (e : Thrown) (w : World) :
  context_getSelectedPage env (calls w) = Normal tt ->
  accessibility_snapshot env (calls w) = Normal (Some root) ->
  findAXNode root target = Some node ->
  node_elementHandle env node (calls w ++ [AccessibilitySnapshot true])
  = Normal (Some h) ->
  handle_screenshot env h
    (calls w ++ [AccessibilitySnapshot true; ElementHandle node])
  = Normal buf ->
  handle_dispose env h
    (calls w ++ [AccessibilitySnapshot true; ElementHandle node;
                 HandleScreenshot h])
  = Throw e ->
  takeScreenshot env target w
  = (Normal (Some (base64 env buf)),
     with_calls w
       (calls w ++ [AccessibilitySnapshot true; ElementHandle node;
                    HandleScreenshot h; HandleDispose h;
                    Logger (screenshot_error_line e)])).
Proof.
  intros Hpage Hsnap Hfind Hhandle Hshot Hdispose. run_screenshot.
  rewrite Hpage. cbn. rewrite Hsnap. cbn. rewrite Hfind. cbn.
  rewrite Hhandle. cbn. rewrite <- ?app_assoc. cbn.
  rewrite Hshot. cbn. rewrite <- ?app_assoc. cbn.
  rewrite Hdispose. cbn. rewrite <- ?app_assoc. reflexivity.
Qed.

(** X16. When the snapshot holds no node with the wanted backend node id (or
    there is no snapshot), no element handle is requested and no
    screenshot is taken: the snapshot is the only call. *)
Theorem node_not_found_no_screenshot
    (target : number) (root : option AXNode) (w : World) :
  context_getSelectedPage env (calls w) = Normal tt ->
  accessibility_snapshot env (calls w) = Normal root ->
  (forall r, root = Some r -> findAXNode r target = None) ->
  takeScreenshot env target w
  = (Normal None, with_calls w (calls w ++ [AccessibilitySnapshot true])).
Proof.
  intros Hpage Hsnap Hnone. run_screenshot.
  rewrite Hpage. cbn. rewrite Hsnap. cbn.
  destruct root as [r |]; [ | reflexivity ].
  rewrite (Hnone r eq_refl). reflexivity.
Qed.

End Screenshot.

(** ** What the steps of a handler keep *)

Section Frames.

Context {X : Type} (obs : World -> X).

Lemma keeps_ret {A} (a : A) : keeps obs (ret a).
Proof. intros w. reflexivity. Qed.

Lemma keeps_lift {A} (c : Completion A) : keeps obs (lift c).
Proof. intros w. reflexivity. Qed.

Lemma keeps_bind {A B} (m : M A) (k : A -> M B) :
  keeps obs m -> (forall a, keeps obs (k a)) -> keeps obs (bind m k).
Proof.
  intros Hm Hk w. unfold bind.
  specialize (Hm w). destruct (m w) as [[a | e] w1]; cbn in *.
  - rewrite Hk. exact Hm.
  - exact Hm.
Qed.

Lemma keeps_try_catch {A} (body : M A) (handler : Thrown -> M A) :
  keeps obs body -> (forall e, keeps obs (handler e)) ->
  keeps obs (try_catch body handler).
Proof.
  intros Hb Hh w. unfold try_catch.
  specialize (Hb w). destruct (body w) as [[a | e] w1]; cbn in *.
  - exact Hb.
  - rewrite Hh. exact Hb.
Qed.

Lemma keeps_try_finally {A} (body : M A) (fin : M unit) :
  keeps obs body -> keeps obs fin -> keeps obs (try_finally body fin).
Proof.
  intros Hb Hf w. unfold try_finally.
  specialize (Hb w). destruct (body w) as [c w1]; cbn in *.
  specialize (Hf w1). destruct (fin w1) as [[[] | e] w2]; cbn in *;
    rewrite Hf; exact Hb.
Qed.

(** A handler and a release block that keep the observation leave it as
    the guarded block left it. *)
Lemma obs_try_catch {A} (body : M A) (handler : Thrown -> M A) (w : World) :
  (forall e, keeps obs (handler e)) ->
  obs (snd (try_catch body handler w)) = obs (snd (body w)).
Proof.
  intros Hh. unfold try_catch. destruct (body w) as [[a | e] w1]; cbn.
  - reflexivity.
  - apply Hh.
Qed.

Lemma obs_try_finally {A} (body : M A) (fin : M unit) (w : World) :
  keeps obs fin ->
  obs (snd (try_finally body fin w)) = obs (snd (body w)).
Proof.
  intros Hf. unfold try_finally. destruct (body w) as [c w1]; cbn.
  specialize (Hf w1). destruct (fin w1) as [[[] | e] w2]; exact Hf.
Qed.

Lemma keeps_branch {A} (b : bool) (m1 m2 : M A) :
  keeps obs m1 -> keeps obs m2 -> keeps obs (if b then m1 else m2).
Proof. destruct b; auto. Qed.

End Frames.

(** The observations and the primitive steps that keep them. *)
Section FrameInstances.

Variable env : Env.

Lemma call_keeps_context {A X} (obs : World -> X) (c : Call)
    (oracle : list Call -> Completion A) :
  (forall w h, obs (with_calls w h) = obs w) ->
  keeps obs (call c oracle).
Proof.
  intros Hblind w. unfold call. cbn.
  exact (Hblind w (calls w ++ [c])%list).
Qed.

Lemma call_keeps_file_calls {A} (c : Call)
    (oracle : list Call -> Completion A) :
  is_file_call c = false -> keeps file_calls (call c oracle).
Proof.
  intros Hc w. unfold call, file_calls. cbn.
  rewrite filter_app. cbn. rewrite Hc. apply app_nil_r.
Qed.

Lemma parse_keeps_file_calls (buffer : option bytes) :
  keeps file_calls (parseRawTraceBuffer env buffer).
Proof.
  intros w. unfold file_calls.
  destruct (parse_frame env buffer w) as (_ & added & -> & Hshape).
  rewrite filter_app. cbn.
  destruct Hshape as [-> | [(e & ->) | [(ev & e & ->) | [(ev & ->) |
                     (ev & e & ->)]]]];
    cbn; apply app_nil_r.
Qed.

Lemma parse_keeps_traces (buffer : option bytes) :
  keeps recordedTraces (parseRawTraceBuffer env buffer).
Proof.
  intros w. destruct (parse_frame env buffer w) as ((_ & H & _) & _).
  exact H.
Qed.

Lemma parse_keeps_response (buffer : option bytes) :
  keeps responseLines (parseRawTraceBuffer env buffer).
Proof.
  intros w. destruct (parse_frame env buffer w) as ((_ & _ & H) & _).
  exact H.
Qed.

Lemma parse_keeps_flag (buffer : option bytes) :
  keeps isRunningPerformanceTrace (parseRawTraceBuffer env buffer).
Proof.
  intros w. destruct (parse_frame env buffer w) as ((H & _ & _) & _).
  exact H.
Qed.

(** The stop path is its three steps inside the two guards. *)
Lemma stop_steps (filePath : option string) :
  stopTracingAndAppendOutput env filePath
  = try_finally
      (try_catch
         (traceEventsBuffer <- call TracingStop (tracing_stop env) ;;
          save_step env filePath traceEventsBuffer ;;;
          report_step env traceEventsBuffer)
         stop_handler)
      (context_setIsRunningPerformanceTrace false).
Proof. reflexivity. Qed.

End FrameInstances.

(** Steps made of the monad's operations: the rules of [keeps], with
    the side conditions decided by computation. *)
Ltac keeps_step :=
  first
    [ apply keeps_ret
    | apply keeps_lift
    | apply keeps_bind; [ | intro ]
    | apply keeps_try_catch; [ | intro ]
    | apply keeps_try_finally
    | apply keeps_branch
    | apply parse_keeps_file_calls
    | apply parse_keeps_traces
    | apply parse_keeps_response
    | apply parse_keeps_flag
    | apply call_keeps_file_calls; reflexivity
    | apply call_keeps_context; reflexivity
    | match goal with
      | |- keeps _ (match ?x with _ => _ end) => destruct x
      end
    | (intros ?w; reflexivity) ].

Ltac keeps_all := repeat keeps_step.

(** ** Append-only histories *)

Section Growth.

Lemma extends_refl {A} (l : list A) : extends l l.
Proof. exists []. symmetry. apply app_nil_r. Qed.

Lemma extends_trans {A} (l1 l2 l3 : list A) :
  extends l1 l2 -> extends l2 l3 -> extends l1 l3.
Proof.
  intros [a ->] [b ->]. exists (a ++ b)%list. symmetry. apply app_assoc.
Qed.

Lemma extends_snoc {A} (l : list A) (x : A) : extends l (l ++ [x]).
Proof. exists [x]. reflexivity. Qed.

Lemma grows_refl (w : World) : grows w w.
Proof. repeat split; apply extends_refl. Qed.

Lemma grows_trans (w1 w2 w3 : World) :
  grows w1 w2 -> grows w2 w3 -> grows w1 w3.
Proof.
  intros (a & b & c) (a' & b' & c').
  repeat split; eapply extends_trans; eassumption.
Qed.

Lemma growing_ret {A} (a : A) : growing (ret a).
Proof. intros w. apply grows_refl. Qed.

Lemma growing_lift {A} (c : Completion A) : growing (lift c).
Proof. intros w. apply grows_refl. Qed.

Lemma growing_read {A} (f : World -> Completion A) :
  growing (fun w => (f w, w)).
Proof. intros w. apply grows_refl. Qed.

Lemma growing_call {A} (c : Call) (oracle : list Call -> Completion A) :
  growing (call c oracle).
Proof.
  intros w. unfold call. repeat split; cbn;
    [ apply extends_snoc | apply extends_refl | apply extends_refl ].
Qed.

Lemma growing_appendResponseLine (line : string) :
  growing (appendResponseLine line).
Proof.
  intros w. repeat split; cbn;
    [ apply extends_refl | apply extends_refl | apply extends_snoc ].
Qed.

Lemma growing_storeTraceRecording (r : TraceResult) :
  growing (context_storeTraceRecording r).
Proof.
  intros w. repeat split; cbn;
    [ apply extends_refl | apply extends_snoc | apply extends_refl ].
Qed.

Lemma growing_setIsRunning (b : bool) :
  growing (context_setIsRunningPerformanceTrace b).
Proof. intros w. repeat split; cbn; apply extends_refl. Qed.

Lemma growing_bind {A B} (m : M A) (k : A -> M B) :
  growing m -> (forall a, growing (k a)) -> growing (bind m k).
Proof.
  intros Hm Hk w. unfold bind.
  specialize (Hm w). destruct (m w) as [[a | e] w1]; cbn in *.
  - eapply grows_trans; [ exact Hm | apply Hk ].
  - exact Hm.
Qed.

Lemma growing_try_catch {A} (body : M A) (handler : Thrown -> M A) :
  growing body -> (forall e, growing (handler e)) ->
  growing (try_catch body handler).
Proof.
  intros Hb Hh w. unfold try_catch.
  specialize (Hb w). destruct (body w) as [[a | e] w1]; cbn in *.
  - exact Hb.
  - eapply grows_trans; [ exact Hb | apply Hh ].
Qed.

Lemma growing_try_finally {A} (body : M A) (fin : M unit) :
  growing body -> growing fin -> growing (try_finally body fin).
Proof.
  intros Hb Hf w. unfold try_finally.
  specialize (Hb w). destruct (body w) as [c w1]; cbn in *.
  specialize (Hf w1). destruct (fin w1) as [[[] | e] w2]; cbn in *;
    eapply grows_trans; eassumption.
Qed.

Lemma growing_branch {A} (b : bool) (m1 m2 : M A) :
  growing m1 -> growing m2 -> growing (if b then m1 else m2).
Proof. destruct b; auto. Qed.

(** What follows a step only appends to what the step left. *)
Lemma bind_grows_from {A B} (m : M A) (k : A -> M B) (w : World) :
  (forall a, growing (k a)) ->
  grows (snd (m w)) (snd (bind m k w)).
Proof.
  intros Hk. unfold bind. destruct (m w) as [[a | e] w1]; cbn.
  - apply Hk.
  - apply grows_refl.
Qed.

Lemma try_catch_grows_from {A} (body : M A) (handler : Thrown -> M A)
    (w : World) :
  (forall e, growing (handler e)) ->
  grows (snd (body w)) (snd (try_catch body handler w)).
Proof.
  intros Hh. unfold try_catch. destruct (body w) as [[a | e] w1]; cbn.
  - apply grows_refl.
  - apply Hh.
Qed.

Lemma try_finally_grows_from {A} (body : M A) (fin : M unit) (w : World) :
  growing fin ->
  grows (snd (body w)) (snd (try_finally body fin w)).
Proof.
  intros Hf. unfold try_finally. destruct (body w) as [c w1]; cbn.
  specialize (Hf w1). destruct (fin w1) as [[[] | e] w2]; exact Hf.
Qed.

Variable env : Env.

Lemma growing_parse (buffer : option bytes) :
  growing (parseRawTraceBuffer env buffer).
Proof.
  intros w.
  destruct (parse_frame env buffer w)
    as ((_ & Htraces & Hlines) & added & Hcalls & _).
  repeat split.
  - eexists. exact Hcalls.
  - rewrite Htraces. apply extends_refl.
  - rewrite Hlines. apply extends_refl.
Qed.

Lemma growing_takeScreenshot (target : number) :
  growing (takeScreenshot env target).
Proof.
  intros w. pose proof (takeScreenshot_frame env target w) as H.
  destruct (takeScreenshot env target w) as [c w'].
  destruct H as ((_ & Htraces & Hlines) & (added & Hcalls & _) & _).
  repeat split; cbn.
  - eexists. exact Hcalls.
  - rewrite Htraces. apply extends_refl.
  - rewrite Hlines. apply extends_refl.
Qed.

End Growth.

Ltac growing_step :=
  first
    [ apply growing_ret
    | apply growing_lift
    | apply growing_call
    | apply growing_appendResponseLine
    | apply growing_storeTraceRecording
    | apply growing_setIsRunning
    | apply growing_parse
    | apply growing_takeScreenshot
    | apply growing_read
    | apply growing_bind; [ | intro ]
    | apply growing_try_catch; [ | intro ]
    | apply growing_try_finally
    | apply growing_branch
    | match goal with
      | |- growing (match ?x with _ => _ end) => destruct x
      end ].

Ltac growing_all := repeat growing_step.

Section HandlersGrow.

Variable env : Env.

Lemma growing_stop (filePath : option string) :
  growing (stopTracingAndAppendOutput env filePath).
Proof.
  unfold stopTracingAndAppendOutput, logger, getTraceSummary.
  growing_all.
Qed.

Lemma growing_getLCPDataWithScreenshot (r : TraceResult) :
  growing (getLCPDataWithScreenshot env r).
Proof.
  unfold getLCPDataWithScreenshot. growing_all.
Qed.

(** X17. Every tool handler of [performance.ts] only appends: the call
    history, the recorded traces and the response lines of the state
    before are initial segments of those after, however the handler
    completes. *)
Theorem handlers_append_only
    (start : StartTraceParams) (filePath : option string)
    (insightSetId insightName : string)
    (stringify : LCPDataWithScreenshot -> string) :
  growing (startTrace env start)
  /\ growing (stopTrace env filePath)
  /\ growing (analyzeInsight env insightSetId insightName)
  /\ growing (showLCPBreakdown env stringify).
Proof.
  split; [ | split; [ | split ] ].
  - unfold startTrace, startRecording, context_isRunningPerformanceTrace,
      context_getSelectedPage_, page_url_.
    growing_all; apply growing_stop.
  - unfold stopTrace, context_isRunningPerformanceTrace,
      context_getSelectedPage_.
    growing_all; apply growing_stop.
  - unfold analyzeInsight, context_lastRecording. growing_all.
  - unfold showLCPBreakdown, context_lastRecording.
    growing_all; apply growing_getLCPDataWithScreenshot.
Qed.

End HandlersGrow.

(** ** The stop path, step by step *)

Section StopPath.

Variable env : Env.

Lemma string_length_append (s t : string) :
  String.length (s ++ t) = String.length s + String.length t.
Proof.
  induction s as [| c s IH]; cbn; [ reflexivity | ].
  rewrite IH. reflexivity.
Qed.

Lemma substring_all (t : string) : substring 0 (String.length t) t = t.
Proof.
  induction t as [| c t IH]; cbn; [ reflexivity | ].
  rewrite IH. reflexivity.
Qed.

Lemma substring_skip (s t : string) (m : nat) :
  substring (String.length s) m (s ++ t) = substring 0 m t.
Proof.
  induction s as [| c s IH]; cbn; [ reflexivity | exact IH ].
Qed.

(** [endsWith] holds of a string built with the suffix at its end. *)
Lemma endsWith_append (s suffix : string) :
  endsWith (s ++ suffix) suffix = true.
Proof.
  unfold endsWith. rewrite string_length_append.
  replace (String.length s + String.length suffix - String.length suffix)
    with (String.length s) by lia.
  rewrite substring_skip, substring_all, String.eqb_refl.
  rewrite andb_true_r. apply Nat.leb_le. lia.
Qed.

Lemma save_step_skipped (filePath : option string) (buffer : option bytes) :
  truthy_opt truthy_string filePath = false ->
  save_step env filePath buffer = ret tt.
Proof.
  intros Hpath. unfold save_step.
  destruct filePath as [path |]; [ | destruct buffer; reflexivity ].
  cbn in Hpath. rewrite Hpath. destruct buffer; reflexivity.
Qed.

(** X20. Without a file path (none, or the empty string) the stop path writes
    nothing: it makes neither a gzip nor a save call, however it goes. *)
Theorem stop_without_path_writes_nothing
    (filePath : option string) (w : World) :
  truthy_opt truthy_string filePath = false ->
  file_calls (snd (stopTracingAndAppendOutput env filePath w))
  = file_calls w.
Proof.
  intros Hpath. revert w.
  change (keeps file_calls (stopTracingAndAppendOutput env filePath)).
  rewrite stop_steps.
  unfold report_step, stop_handler, logger, getTraceSummary.
  apply keeps_try_finally; [ | intros w; reflexivity ].
  apply keeps_try_catch; [ | intro; keeps_all ].
  apply keeps_bind; [ keeps_all | intro buffer ].
  rewrite (save_step_skipped _ _ Hpath).
  keeps_all.
Qed.

(** The recorded traces are the same after the three steps that do not
    store. *)
Lemma save_step_keeps_traces (filePath : option string)
    (buffer : option bytes) :
  keeps recordedTraces (save_step env filePath buffer).
Proof.
  unfold save_step.
  destruct filePath as [path |]; destruct buffer as [b |]; keeps_all.
Qed.

Lemma stop_handler_keeps_traces (e : Thrown) :
  keeps recordedTraces (stop_handler e).
Proof. unfold stop_handler, logger. keeps_all. Qed.

(** The report step records the trace of a successful parse, and that
    only. *)
Lemma report_step_traces (buffer : option bytes) (w : World) :
  recordedTraces (snd (report_step env buffer w)) = recordedTraces w
  \/ exists r w1,
       fst (parseRawTraceBuffer env buffer w) = Normal (Success r)
       /\ w1 = snd (parseRawTraceBuffer env buffer w)
       /\ recordedTraces (snd (report_step env buffer w))
          = (recordedTraces w ++ [r])%list.
Proof.
  unfold report_step, bind.
  pose proof (parse_keeps_traces env buffer w) as Hparse.
  destruct (parseRawTraceBuffer env buffer w) as [[outcome | e] w1];
    cbn in Hparse; cbn; [ | left; exact Hparse ].
  destruct outcome as [r | err]; cbn.
  - right. exists r, w1. repeat split.
    unfold lift, getTraceSummary.
    destruct (formatTraceSummary env (parsedTrace r)); cbn;
      rewrite Hparse; reflexivity.
  - left. exact Hparse.
Qed.

(** X19. A stop records at most one trace, and only a trace that the adapter
    returned as a success for the buffer of [tracing.stop]; the traces
    recorded before are kept, in their order. *)
Theorem stop_records_at_most_one (filePath : option string) (w : World) :
  let w' := snd (stopTracingAndAppendOutput env filePath w) in
  recordedTraces w' = recordedTraces w
  \/ exists r buffer w1,
       tracing_stop env (calls w) = Normal buffer
       /\ fst (parseRawTraceBuffer env buffer w1) = Normal (Success r)
       /\ recordedTraces w' = (recordedTraces w ++ [r])%list.
Proof.
  cbv zeta.
  remember (recordedTraces (snd (stopTracingAndAppendOutput env filePath w)))
    as after eqn:Hafter.
  rewrite stop_steps in Hafter.
  rewrite (obs_try_finally recordedTraces) in Hafter
    by (intros w0; reflexivity).
  rewrite (obs_try_catch recordedTraces) in Hafter
    by (intro; apply stop_handler_keeps_traces).
  unfold bind at 1 in Hafter. unfold call in Hafter.
  cbn -[save_step report_step bind] in Hafter.
  destruct (tracing_stop env (calls w)) as [buffer | e];
    cbn -[save_step report_step bind] in Hafter; [ | left; exact Hafter ].
  unfold bind in Hafter.
  match type of Hafter with
  | context [save_step env filePath buffer ?w1] =>
      pose proof (save_step_keeps_traces filePath buffer w1) as Hsave;
      destruct (save_step env filePath buffer w1) as [[[] | e] w2]
  end; cbn -[report_step] in *; [ | left; rewrite Hafter; exact Hsave ].
  destruct (report_step_traces buffer w2)
    as [Hsame | (r & w3 & Hr & _ & Hadd)].
  - left. rewrite Hafter, Hsame. exact Hsave.
  - right. exists r, buffer, w2.
    split; [ reflexivity | ]. split; [ exact Hr | ].
    rewrite Hafter, Hadd, Hsave. reflexivity.
Qed.

Ltac run_stop :=
  unfold stopTracingAndAppendOutput, try_finally, try_catch, bind, call,
    ret, lift, logger, appendResponseLine, context_storeTraceRecording,
    context_setIsRunningPerformanceTrace, getTraceSummary;
  cbn -[parseRawTraceBuffer endsWith truthy_string].

(** X22. When the save fails, the trace is not parsed: the failure is logged
    and reported in the response, the engine is not called and no trace is
    recorded. *)
Theorem stop_save_failure_skips_parse
    (path : string) (buffer : bytes) (e : Thrown) (w : World) :
  truthy_string path = true ->
  endsWith path ".gz" = false ->
  tracing_stop env (calls w) = Normal (Some buffer) ->
  context_saveFile env buffer path (calls w ++ [TracingStop]) = Throw e ->
  stopTracingAndAppendOutput env (Some path) w
  = (Normal tt,
     {| calls :=
          (calls w ++ [TracingStop; SaveFile buffer path;
                       stop_error_log e])%list;
        isRunningPerformanceTrace := false;
        recordedTraces := recordedTraces w;
        responseLines := (responseLines w ++ stop_error_lines e)%list |}).
Proof.
  intros Hpath Hgz Hstop Hsave. run_stop.
  rewrite Hstop. cbn -[parseRawTraceBuffer endsWith truthy_string].
  rewrite Hpath, Hgz. cbn -[parseRawTraceBuffer].
  rewrite Hsave. cbn. rewrite <- !app_assoc. reflexivity.
Qed.

(** X21. A path that ends in [.gz] gets the compressed data: the buffer goes
    through gzip, and what is saved under the path is what gzip
    returned. *)
Theorem stop_gz_saves_compressed
    (base : string) (buffer compressed : bytes) (w : World) :
  tracing_stop env (calls w) = Normal (Some buffer) ->
  zlib_gzip env buffer (calls w ++ [TracingStop]) = Normal compressed ->
  extends
    (calls w ++ [TracingStop; Gzip buffer;
                 SaveFile compressed (base ++ ".gz")])
    (calls (snd (stopTracingAndAppendOutput env (Some (base ++ ".gz")) w))).
Proof.
  intros Hstop Hgzip.
  assert (Htruthy : truthy_string (base ++ ".gz") = true)
    by (destruct base; reflexivity).
  run_stop. rewrite Hstop. cbn -[parseRawTraceBuffer endsWith truthy_string].
  rewrite Htruthy, endsWith_append. cbn -[parseRawTraceBuffer].
  rewrite Hgzip. cbn -[parseRawTraceBuffer].
  destruct (context_saveFile env compressed (base ++ ".gz") _)
    as [file | e]; cbn -[parseRawTraceBuffer].
  2: { unfold extends. eexists. rewrite <- ?app_assoc. cbn. reflexivity. }
  match goal with
  | |- context [parseRawTraceBuffer env ?b ?w1] =>
      pose proof (parse_frame env b w1) as Hparse;
      destruct (parseRawTraceBuffer env b w1) as [[outcome | e] w2]
  end; cbn in Hparse; destruct Hparse as (_ & added & Hcalls & _).
  - destruct outcome as [r | err]; cbn.
    + destruct (formatTraceSummary env (parsedTrace r)); cbn;
        rewrite Hcalls; unfold extends; eexists;
        rewrite <- ?app_assoc; cbn; reflexivity.
    + rewrite Hcalls. unfold extends. eexists.
      rewrite <- ?app_assoc. cbn. reflexivity.
  - cbn. rewrite Hcalls. unfold extends. eexists.
    rewrite <- ?app_assoc. cbn. reflexivity.
Qed.

(** X23. The trace is stored before the summary is made: when the summary
    throws after a successful parse, the failure is reported in the
    response and the trace is recorded all the same. *)
Theorem stop_records_before_summary
    (buffer : option bytes) (r : TraceResult) (e : Thrown) (w w2 : World) :
  tracing_stop env (calls w) = Normal buffer ->
  parseRawTraceBuffer env buffer (with_calls w (calls w ++ [TracingStop]))
  = (Normal (Success r), w2) ->
  formatTraceSummary env (parsedTrace r) = Throw e ->
  stopTracingAndAppendOutput env None w
  = (Normal tt,
     {| calls := (calls w2 ++ [stop_error_log e])%list;
        isRunningPerformanceTrace := false;
        recordedTraces := (recordedTraces w ++ [r])%list;
        responseLines :=
          (responseLines w
           ++ "The performance trace has been stopped."
              :: stop_error_lines e)%list |}).
Proof.
  intros Hstop Hparse Hsummary.
  pose proof (parse_frame env buffer
                (with_calls w (calls w ++ [TracingStop]))) as Hframe.
  rewrite Hparse in Hframe. cbn in Hframe.
  destruct Hframe as ((_ & Htraces & Hlines) & _).
  run_stop. rewrite Hstop. cbn -[parseRawTraceBuffer].
  unfold with_calls in Hparse. rewrite Hparse. cbn.
  rewrite Hsummary. cbn. rewrite Htraces, Hlines.
  rewrite <- !app_assoc. reflexivity.
Qed.


(** A stop request while no recording is active does nothing at all. *)
Theorem stopTrace_idle_noop (filePath : option string) (w : World) :
  isRunningPerformanceTrace w = false ->
  stopTrace env filePath w = (Normal tt, w).
Proof.
  intros Hidle.
  unfold stopTrace, bind, context_isRunningPerformanceTrace.
  rewrite Hidle. reflexivity.
Qed.

(** X25. After a start request on an idle state, the recording flag is set
    unless the trace was stopped again by [autoStop]: it is cleared
    exactly when the handler returned and [autoStop] was asked for.  When
    the handler throws (the page, a navigation or [tracing.start] failed),
    the flag is left set. *)
Theorem startTrace_flag_after (params : StartTraceParams) (w : World) :
  isRunningPerformanceTrace w = false ->
  let (completion, w') := startTrace env params w in
  isRunningPerformanceTrace w'
  = match completion with
    | Normal _ => negb (autoStop params)
    | Throw _ => true
    end.
Proof.
  intros Hidle. rewrite startTrace_accepted_when_idle by exact Hidle.
  unfold startRecording, bind, call, ret, context_getSelectedPage_,
    page_url_, context_setIsRunningPerformanceTrace, appendResponseLine.
  cbn -[stopTracingAndAppendOutput].
  destruct (context_getSelectedPage env (calls w)) as [[] | e0];
    [ | reflexivity ].
  assert (Hstop : forall w0,
    let (c, w') := stopTracingAndAppendOutput env (filePath params) w0 in
    isRunningPerformanceTrace w'
    = match c with
      | Normal _ => false
      | Throw _ => true
      end).
  { intros w0.
    pose proof (stop_completes env (filePath params) w0) as Hnormal.
    pose proof (try_finally_release
                  (try_catch
                     (traceEventsBuffer <-
                        call TracingStop (tracing_stop env) ;;
                      save_step env (filePath params) traceEventsBuffer ;;;
                      report_step env traceEventsBuffer)
                     stop_handler) w0) as Hflag.
    rewrite <- stop_steps in Hflag.
    destruct (stopTracingAndAppendOutput env (filePath params) w0)
      as [c w'].
    cbn in *. rewrite Hnormal. exact Hflag. }
  destruct (reload params); cbn -[stopTracingAndAppendOutput].
  - destruct (page_goto env "about:blank" (calls w)) as [[] | e1];
      [ | reflexivity ].
    cbn -[stopTracingAndAppendOutput].
    destruct (tracing_start env categories _) as [[] | e2];
      [ | reflexivity ].
    cbn -[stopTracingAndAppendOutput].
    destruct (page_goto env (page_url env (calls w)) _) as [[] | e3];
      [ | reflexivity ].
    destruct (autoStop params); cbn -[stopTracingAndAppendOutput];
      [ | reflexivity ].
    match goal with
    | |- context [stopTracingAndAppendOutput env _ ?w0] =>
        specialize (Hstop w0);
        destruct (stopTracingAndAppendOutput env (filePath params) w0)
          as [[[] | e4] w']
    end; exact Hstop.
  - destruct (tracing_start env categories _) as [[] | e2];
      [ | reflexivity ].
    destruct (autoStop params); cbn -[stopTracingAndAppendOutput];
      [ | reflexivity ].
    match goal with
    | |- context [stopTracingAndAppendOutput env _ ?w0] =>
        specialize (Hstop w0);
        destruct (stopTracingAndAppendOutput env (filePath params) w0)
          as [[[] | e4] w']
    end; exact Hstop.
Qed.

End StopPath.

(** ** The read-only handlers *)

Section ReadOnlyHandlers.

Variable env : Env.

Lemma last_recording_snoc (earlier : list TraceResult) (r : TraceResult) :
  last (map Some (earlier ++ [r])) None = Some r.
Proof.
  rewrite map_app. cbn. apply last_last.
Qed.

Lemma analyzeInsight_keeps {X} (obs : World -> X)
    (insightSetId insightName : string) :
  (forall w line,
     obs {| calls := calls w;
            isRunningPerformanceTrace := isRunningPerformanceTrace w;
            recordedTraces := recordedTraces w;
            responseLines := (responseLines w ++ [line])%list |}
     = obs w) ->
  keeps obs (analyzeInsight env insightSetId insightName).
Proof.
  intros Hblind. unfold analyzeInsight, context_lastRecording.
  assert (Happend : forall line, keeps obs (appendResponseLine line))
    by (intros line w; apply Hblind).
  apply keeps_bind; [ intros w; reflexivity | intros [r |] ];
    [ | apply Happend ].
  apply keeps_bind; [ apply keeps_lift | intros [t | t] ];
    [ | apply Happend ].
  apply keeps_bind; [ apply Happend | intro; apply Happend ].
Qed.

(** X26. [performance_analyze_insight] is read-only: it sends no command
    to the trace engine, the page (navigation, tracing, accessibility
    snapshot, element handles), the compressor, the file system, the
    timer or the logger, so that the history is unchanged, and it leaves
    the recording flag and the recorded traces as they are; with no
    recorded trace it answers with the one line that says so.  (The one
    thing outside the repository that it consults is the insight
    formatter, a library function of the recording and the insight that
    leaves no entry in the history.) *)
Theorem analyzeInsight_read_only
    (insightSetId insightName : string) (w : World) :
  let (completion, w') := analyzeInsight env insightSetId insightName w in
  calls w' = calls w
  /\ isRunningPerformanceTrace w' = isRunningPerformanceTrace w
  /\ recordedTraces w' = recordedTraces w
  /\ (recordedTraces w = [] ->
      completion = Normal tt
      /\ responseLines w'
         = (responseLines w ++ [no_recording_message])%list).
Proof.
  pose proof (analyzeInsight_keeps calls insightSetId insightName
                ltac:(reflexivity) w) as Hcalls.
  pose proof (analyzeInsight_keeps isRunningPerformanceTrace insightSetId
                insightName ltac:(reflexivity) w) as Hflag.
  pose proof (analyzeInsight_keeps recordedTraces insightSetId insightName
                ltac:(reflexivity) w) as Htraces.
  assert (Hempty :
    recordedTraces w = [] ->
    analyzeInsight env insightSetId insightName w
    = appendResponseLine no_recording_message w).
  { intros H. unfold analyzeInsight, bind, context_lastRecording.
    rewrite H. reflexivity. }
  destruct (analyzeInsight env insightSetId insightName w) as [c w'].
  cbn in *. repeat split; try assumption;
    specialize (Hempty H); injection Hempty as -> ->; reflexivity.
Qed.

(** X27. The insight is looked up in the most recent recording only: the
    answer is the error text of the lookup, or its output followed by the
    hint line, whatever the earlier recordings hold; when the formatter
    throws, nothing is appended. *)
Theorem analyzeInsight_uses_last_recording
    (insightSetId insightName : string)
    (earlier : list TraceResult) (r : TraceResult) (w : World) :
  recordedTraces w = (earlier ++ [r])%list ->
  let (completion, w') := analyzeInsight env insightSetId insightName w in
  match getInsightOutput env r insightSetId insightName with
  | Normal (error text) =>
      completion = Normal tt
      /\ responseLines w' = (responseLines w ++ [text])%list
  | Normal (output text) =>
      completion = Normal tt
      /\ responseLines w' = (responseLines w ++ [text; lcp_hint_line])%list
  | Throw e =>
      completion = Throw e /\ responseLines w' = responseLines w
  end.
Proof.
  intros Htraces.
  unfold analyzeInsight, bind, context_lastRecording, lift,
    appendResponseLine.
  rewrite Htraces, last_recording_snoc.
  destruct (getInsightOutput env r insightSetId insightName)
    as [[text | text] | e]; cbn; split; try reflexivity.
  rewrite <- app_assoc. reflexivity.
Qed.

Lemma getLCPDataWithScreenshot_keeps {X} (obs : World -> X)
    (r : TraceResult) :
  (forall w h, obs (with_calls w h) = obs w) ->
  keeps obs (getLCPDataWithScreenshot env r).
Proof.
  intros Hblind.
  assert (Hcall : forall A (c : Call) (o : list Call -> Completion A),
             keeps obs (call c o))
    by (intros; apply call_keeps_context; exact Hblind).
  unfold getLCPDataWithScreenshot, takeScreenshot, logger,
    context_getSelectedPage_.
  repeat first
    [ apply Hcall
    | apply keeps_ret
    | apply keeps_bind; [ | intro ]
    | apply keeps_try_catch; [ | intro ]
    | apply keeps_branch
    | match goal with
      | |- keeps _ (match ?x with _ => _ end) => destruct x
      end
    | (intros ?w; reflexivity) ].
Qed.

(** X28. [performance_show_lcp_breakdown] leaves the recording flag and the
    recorded traces as they are, and when it returns it has appended one
    of three answers: the line for no recorded trace, the line for no LCP
    data, or the four lines of the payload (the opening line and the
    payload between the two fence lines). *)
Theorem showLCPBreakdown_answers
    (stringify : LCPDataWithScreenshot -> string) (w : World) :
  let (completion, w') := showLCPBreakdown env stringify w in
  isRunningPerformanceTrace w' = isRunningPerformanceTrace w
  /\ recordedTraces w' = recordedTraces w
  /\ match completion with
     | Normal _ =>
         responseLines w' = (responseLines w ++ [no_recording_message])%list
         \/ responseLines w'
            = (responseLines w
               ++ ["No LCP data found in the current recording."])%list
         \/ exists payload,
              responseLines w'
              = (responseLines w
                 ++ [ "LCP Breakdown UI opened."; "```json";
                      stringify payload; "```" ])%list
     | Throw _ => responseLines w' = responseLines w
     end.
Proof.
  unfold showLCPBreakdown, bind, context_lastRecording.
  cbn -[getLCPDataWithScreenshot].
  destruct (last (map Some (recordedTraces w)) None) as [r |]; cbn.
  2: { repeat split. left. reflexivity. }
  pose proof (getLCPDataWithScreenshot_keeps isRunningPerformanceTrace r
                ltac:(reflexivity) w) as Hflag.
  pose proof (getLCPDataWithScreenshot_keeps recordedTraces r
                ltac:(reflexivity) w) as Htraces.
  pose proof (getLCPDataWithScreenshot_keeps responseLines r
                ltac:(reflexivity) w) as Hlines.
  destruct (getLCPDataWithScreenshot env r w) as [[[payload |] | e] w1];
    cbn in *; repeat split; try assumption.
  - right. right. exists payload. rewrite Hlines, <- !app_assoc.
    reflexivity.
  - right. left. rewrite Hlines. reflexivity.
Qed.

End ReadOnlyHandlers.

(** ** Failures and keys that match nothing *)

Section EdgeCases.

Variable env : Env.

(** X18. The stop path never throws.  When [tracing.stop] itself throws, the
    failure is logged and reported in two response lines, nothing is
    saved, parsed or recorded, and the flag is cleared. *)
Theorem stop_never_throws (filePath : option string) (w : World) :
  let (completion, w') := stopTracingAndAppendOutput env filePath w in
  completion = Normal tt
  /\ match tracing_stop env (calls w) with
     | Throw e =>
         w' = {| calls := (calls w ++ [TracingStop; stop_error_log e])%list;
                 isRunningPerformanceTrace := false;
                 recordedTraces := recordedTraces w;
                 responseLines :=
                   (responseLines w ++ stop_error_lines e)%list |}
     | Normal _ => True
     end.
Proof.
  pose proof (stop_completes env filePath w) as Hnormal.
  assert (Hthrow : forall e,
    tracing_stop env (calls w) = Throw e ->
    snd (stopTracingAndAppendOutput env filePath w)
    = {| calls := (calls w ++ [TracingStop; stop_error_log e])%list;
         isRunningPerformanceTrace := false;
         recordedTraces := recordedTraces w;
         responseLines := (responseLines w ++ stop_error_lines e)%list |}).
  { intros e He.
    unfold stopTracingAndAppendOutput, try_finally, try_catch, bind, call,
      logger, appendResponseLine, context_setIsRunningPerformanceTrace.
    cbn. rewrite He. cbn. rewrite <- !app_assoc. reflexivity. }
  destruct (stopTracingAndAppendOutput env filePath w) as [c w'].
  cbn in *. split; [ exact Hnormal | ].
  destruct (tracing_stop env (calls w)) as [b | e]; [ exact I | ].
  apply Hthrow. reflexivity.
Qed.

Lemma strict_eq_nan (x : number) : strict_eq x nan = false.
Proof.
  unfold strict_eq. rewrite FloatAxioms.eqb_spec.
  replace (Prim2SF nan) with S754_nan by reflexivity.
  unfold SFeqb. destruct (Prim2SF x) as [s | s | | s m e]; reflexivity.
Qed.

Lemma find_none_all {A} (p : A -> bool) (l : list A) :
  (forall x, p x = false) -> find p l = None.
Proof.
  intros Hp. induction l as [| a l IH]; cbn; [ reflexivity | ].
  rewrite Hp. exact IH.
Qed.

(** X29. The two lookups compare with [===], so [NaN] finds nothing: no layout
    shift has the timestamp [NaN] and no accessibility node has the
    backend node id [NaN], whatever the recording and the tree hold. *)
Theorem nan_matches_nothing (result : TraceResult) (node : AXNode) :
  getLayoutShiftImages result nan = None
  /\ findAXNode node nan = None.
Proof.
  split.
  - unfold getLayoutShiftImages.
    rewrite find_none_all; [ reflexivity | ].
    intros s. apply strict_eq_nan.
  - rewrite findAXNode_is_find. apply find_none_all.
    intros [role [i |] children]; cbn; [ apply strict_eq_nan | reflexivity ].
Qed.

End EdgeCases.


(** ** The layout shift list *)

Section ShiftList.

(** The image the code keeps is the one described by [image_of]. *)
Lemma screenshot_image_spec (shot : option DevTools.ScreenshotEvent) :
  image_of shot (screenshot_image shot).
Proof.
  destruct shot as [ev |]; cbn; [ | constructor ].
  destruct (DevTools.snapshot (DevTools.screenshot_args ev)) as [img |]
    eqn:Hsnapshot.
  - apply image_snapshot. exact Hsnapshot.
  - apply image_dataUri. exact Hsnapshot.
Qed.

Lemma layoutShift_of_entry (e : DevTools.LayoutShiftEvent) :
  entry_of e (layoutShift_of e).
Proof.
  unfold entry_of, layoutShift_of. cbn.
  split; [ reflexivity | ].
  split; [ | split; apply screenshot_image_spec ].
  destruct (DevTools.args_data e) as [d |] eqn:Hdata.
  - destruct (DevTools.weighted_score_delta d) as [x |] eqn:Hdelta; cbn.
    + exact (score_delta e d x Hdata Hdelta).
    + exact (score_no_delta e d Hdata Hdelta).
  - exact (score_no_data e Hdata).
Qed.

(** X30. [getLayoutShifts] makes one entry per layout shift event, none
    lost and none twice, cluster after cluster and event after event:
    the entries are, one for one and in this order, those of the events
    of all clusters.  An entry carries the timestamp of its event, the
    event's weighted score delta ([0] when it has none) and, for the
    screenshot before and the one after, the legacy [snapshot] when the
    screenshot has one, else its [dataUri], and nothing when the event
    has no such screenshot. *)
Theorem getLayoutShifts_one_entry_per_event (result : TraceResult) :
  Forall2 entry_of
    (flat_map DevTools.events
       (DevTools.LayoutShifts_clusters (parsedTrace result)))
    (getLayoutShifts result)
  /\ map ts (getLayoutShifts result)
     = flat_map (fun c => map DevTools.ts (DevTools.events c))
         (DevTools.LayoutShifts_clusters (parsedTrace result))
  /\ List.length (getLayoutShifts result)
     = list_sum
         (map (fun c => List.length (DevTools.events c))
            (DevTools.LayoutShifts_clusters (parsedTrace result))).
Proof.
  rewrite getLayoutShifts_flat. unfold flattened_shifts.
  induction (DevTools.LayoutShifts_clusters (parsedTrace result))
    as [| c cs (IHentries & IHts & IHlen)].
  - split; [ constructor | split; reflexivity ].
  - cbn [flat_map map list_sum].
    rewrite !map_app, length_app, !map_map, length_map, IHts, IHlen.
    split; [ | split; reflexivity ].
    apply Forall2_app; [ | exact IHentries ].
    induction (DevTools.events c) as [| e es IHes]; cbn.
    + constructor.
    + constructor; [ apply layoutShift_of_entry | exact IHes ].
Qed.

(** A screenshot that has both a [snapshot] and a [dataUri]: the
    snapshot is kept.  A shift without screenshots has no images, and
    without a score delta the score [0]. *)
Example snapshot_is_preferred :
  getLayoutShifts
    (Sample.recording_of []
       [ {| DevTools.events :=
              [ {| DevTools.ts := 7%float;
                   DevTools.args_data :=
                     Some {| DevTools.weighted_score_delta :=
                               Some 0.25%float |};
                   DevTools.screenshots_before :=
                     Some {| DevTools.screenshot_args :=
                               {| DevTools.snapshot := Some "legacy";
                                  DevTools.dataUri := Some "uri" |} |};
                   DevTools.screenshots_after :=
                     Some {| DevTools.screenshot_args :=
                               {| DevTools.snapshot := None;
                                  DevTools.dataUri := Some "uri" |} |} |};
                {| DevTools.ts := 9%float;
                   DevTools.args_data := None;
                   DevTools.screenshots_before := None;
                   DevTools.screenshots_after := None |} ] |} ])
  = [ {| ts := 7%float; score := 0.25%float;
         images := {| before := Some "legacy"; after := Some "uri" |} |};
      {| ts := 9%float; score := 0%float;
         images := {| before := None; after := None |} |} ].
Proof. reflexivity. Qed.

End ShiftList.

(** ** The further statements on the sample data *)

(** The text [{] is not JSON. *)
Lemma parse_returns_after_reset_sample :
  engine_resetProcessor Fixture.env (calls Fixture.idle) = Normal tt
  /\ exists outcome,
       fst (parseRawTraceBuffer Fixture.env
              (Some (list_byte_of_string "{")) Fixture.idle)
       = Normal outcome.
Proof.
  split.
  - reflexivity.
  - exact (parse_returns_after_reset Fixture.env
             (Some (list_byte_of_string "{")) Fixture.idle eq_refl).
Defined.

(** A decoder that throws: the exception leaves the adapter, after the
    reset, and nothing is logged. *)
Example decoder_failure_escapes :
  parseRawTraceBuffer (Sample.failing_decoder Fixture.env)
    (Some (list_byte_of_string Sample.bare_array_text)) Fixture.idle
  = (Throw Sample.too_long, with_calls Fixture.idle [EngineReset]).
Proof. reflexivity. Qed.

Lemma parse_malformed_text_sample :
  TextDecoder_decode Fixture.env (list_byte_of_string "{") = Normal "{"
  /\ JSON_parse Fixture.env "{" = Throw Fixture.syntax_error
  /\ parseRawTraceBuffer Fixture.env (Some (list_byte_of_string "{"))
       Fixture.idle
     = (Normal (ParseError (errorText Fixture.syntax_error)),
        with_calls Fixture.idle
          (calls Fixture.idle
           ++ [EngineReset; parse_error_log Fixture.syntax_error])).
Proof.
  split; [ reflexivity | split; [ reflexivity | ] ].
  exact (parse_malformed_text Fixture.env (list_byte_of_string "{") "{"
           Fixture.syntax_error Fixture.idle
           eq_refl eq_refl eq_refl eq_refl).
Defined.

(** The events [1, 2] give the trace of the engine. *)
Lemma parse_success_sample :
  let r := {| parsedTrace := Fixture.empty_trace "trace";
              insights := None |} in
  parseRawTraceBuffer Fixture.env
    (Some (list_byte_of_string Sample.bare_array_text)) Fixture.idle
  = (Normal (Success r),
     with_calls Fixture.idle
       [EngineReset; EngineParse (Some (JArray Sample.two_events));
        EngineParsedTrace])
  /\ insights r = DevTools.parsed_insights (parsedTrace r)
  /\ exists ev,
       [EngineReset; EngineParse (Some (JArray Sample.two_events));
        EngineParsedTrace]
       = (calls Fixture.idle
          ++ [EngineReset; EngineParse ev; EngineParsedTrace])%list
       /\ engine_parsedTrace Fixture.env
            (calls Fixture.idle ++ [EngineReset; EngineParse ev])
          = Normal (Some (parsedTrace r)).
Proof.
  cbv zeta. split.
  - reflexivity.
  - exact (parse_success_is_engine_trace Fixture.env
             (Some (list_byte_of_string Sample.bare_array_text))
             {| parsedTrace := Fixture.empty_trace "trace";
                insights := None |}
             Fixture.idle
             (with_calls Fixture.idle
                [EngineReset; EngineParse (Some (JArray Sample.two_events));
                 EngineParsedTrace])
             eq_refl).
Defined.

(** The text [{}] is an object without [traceEvents]. *)
Lemma parse_feeds_undefined_sample :
  TextDecoder_decode Fixture.env (list_byte_of_string "{}") = Normal "{}"
  /\ JSON_parse Fixture.env "{}" = Normal (JObject [])
  /\ fed_events
       (calls
          (snd (parseRawTraceBuffer Fixture.env
                  (Some (list_byte_of_string "{}")) Fixture.idle)))
     = (fed_events (calls Fixture.idle) ++ [None])%list.
Proof.
  split; [ reflexivity | split; [ reflexivity | ] ].
  exact (parse_feeds_undefined Fixture.env (list_byte_of_string "{}") "{}"
           (JObject []) Fixture.idle
           eq_refl eq_refl eq_refl eq_refl eq_refl).
Defined.

Lemma parse_without_trace_sample :
  engine_parsedTrace Sample.no_trace_env
    (calls Fixture.idle
     ++ [EngineReset; EngineParse (Some (JArray Sample.two_events))])
  = Normal None
  /\ parseRawTraceBuffer Sample.no_trace_env
       (Some (list_byte_of_string Sample.bare_array_text)) Fixture.idle
     = (Normal
          (ParseError "No parsed trace was returned from the trace engine."),
        with_calls Fixture.idle
          (calls Fixture.idle
           ++ [EngineReset; EngineParse (Some (JArray Sample.two_events));
               EngineParsedTrace])).
Proof.
  split.
  - reflexivity.
  - exact (parse_without_trace Sample.no_trace_env
             (list_byte_of_string Sample.bare_array_text)
             Sample.bare_array_text
             (JArray Sample.two_events) (Some (JArray Sample.two_events))
             Fixture.idle
             eq_refl eq_refl eq_refl eq_refl eq_refl eq_refl eq_refl).
Defined.

Lemma output_comes_from_formatter_sample :
  getInsightOutput Fixture.env Sample.recording_A_B "A" "LCPBreakdown"
  = Normal (output "## Insight: LCPBreakdown")
  /\ exists sets insightSet,
       insights Sample.recording_A_B = Some sets
       /\ DevTools.Map_get sets "A" = Some insightSet
       /\ has_property (DevTools.model insightSet) "LCPBreakdown" = true
       /\ truthy_prop
            (get_property (DevTools.model insightSet) "LCPBreakdown")
          = true
       /\ formatInsight Fixture.env (parsedTrace Sample.recording_A_B)
            (get_property (DevTools.model insightSet) "LCPBreakdown")
          = Normal "## Insight: LCPBreakdown".
Proof.
  split.
  - reflexivity.
  - exact (output_comes_from_formatter Fixture.env Sample.recording_A_B
             "A" "LCPBreakdown" "## Insight: LCPBreakdown" eq_refl).
Defined.

(** A misspelt insight name. *)
Lemma getInsightOutput_unknown_name_sample :
  (assoc "LCPBreakdow"
     (DevTools.own
        (DevTools.model
           (Sample.set_of (Sample.lcp_insight (Some 0%float) None None))))
   = None
   /\ inherited "LCPBreakdow" = false)
  /\ getInsightOutput Fixture.env Sample.recording_A_B "A" "LCPBreakdow"
     = Normal (error (unknown_insight_message "LCPBreakdow")).
Proof.
  split.
  - split; reflexivity.
  - exact (getInsightOutput_unknown_name Fixture.env Sample.recording_A_B
             _ (Sample.set_of (Sample.lcp_insight (Some 0%float) None None))
             "A" "LCPBreakdow" eq_refl eq_refl
             (or_intror (conj eq_refl eq_refl))).
Defined.

Lemma phases_in_fixed_order_sample :
  getLCPBreakdownData Sample.two_phase_recording "NAVIGATION_0"
  = Some Sample.two_phase_breakdown
  /\ map name (phases Sample.two_phase_breakdown)
     = filter
         (fun n =>
            existsb (String.eqb n) (map name (phases Sample.two_phase_breakdown)))
         phase_names
  /\ (List.length (phases Sample.two_phase_breakdown) <= 4)%nat.
Proof.
  split.
  - reflexivity.
  - exact (phases_in_fixed_order Sample.two_phase_recording "NAVIGATION_0"
             Sample.two_phase_breakdown eq_refl).
Defined.

Lemma set_without_lcpMs_sample :
  DevTools.lcpMs (Sample.lcp_insight None (Some 4%float) None) = None
  /\ (exists d,
        getLCPBreakdownData Sample.recording_without_lcpMs "NAVIGATION_0"
        = Some d
        /\ lcpMs d = 0%float)
  /\ finalInsightSetId Sample.recording_without_lcpMs
     <> Some "NAVIGATION_0".
Proof.
  split.
  - reflexivity.
  - exact (set_without_lcpMs_never_selected Sample.recording_without_lcpMs
             "NAVIGATION_0" _
             (Sample.set_of (Sample.lcp_insight None (Some 4%float) None))
             (Sample.lcp_insight None (Some 4%float) None)
             eq_refl eq_refl eq_refl eq_refl).
Defined.

(** The snapshot throws; the breakdown is returned without screenshot. *)
Lemma lcp_data_survives_sample :
  finalInsightSetId Sample.recording_node_four = Some "NAVIGATION_0"
  /\ accessibility_snapshot Sample.failing_snapshot (calls Fixture.idle)
     = Throw Sample.boom
  /\ exists d shot,
       getLCPBreakdownData Sample.recording_node_four "NAVIGATION_0" = Some d
       /\ fst (getLCPDataWithScreenshot Sample.failing_snapshot
                 Sample.recording_node_four Fixture.idle)
          = Normal (Some {| lcpData := d; screenshot := shot |}).
Proof.
  split; [ reflexivity | ]. split; [ reflexivity | ].
  exact (lcp_data_survives_screenshot_failure Sample.failing_snapshot
           Sample.recording_node_four "NAVIGATION_0" Fixture.idle
           eq_refl eq_refl eq_refl).
Defined.

Lemma dispose_failure_sample :
  findAXNode Sample.tree 4%float = Some Sample.node4
  /\ handle_dispose Sample.failing_dispose Sample.handle_one
       (calls Fixture.idle
        ++ [AccessibilitySnapshot true; ElementHandle Sample.node4;
            HandleScreenshot Sample.handle_one])
     = Throw Sample.boom
  /\ takeScreenshot Sample.failing_dispose 4%float Fixture.idle
     = (Normal
          (Some (base64 Sample.failing_dispose (list_byte_of_string "png"))),
        with_calls Fixture.idle
          (calls Fixture.idle
           ++ [AccessibilitySnapshot true; ElementHandle Sample.node4;
               HandleScreenshot Sample.handle_one; HandleDispose Sample.handle_one;
               Logger (screenshot_error_line Sample.boom)])).
Proof.
  split; [ reflexivity | ]. split; [ reflexivity | ].
  exact (dispose_failure_keeps_screenshot Sample.failing_dispose 4%float
           Sample.tree Sample.node4 Sample.handle_one (list_byte_of_string "png")
           Sample.boom Fixture.idle
           eq_refl eq_refl eq_refl eq_refl eq_refl eq_refl).
Defined.

(** The tree has no node [99]. *)
Lemma node_not_found_sample :
  accessibility_snapshot Sample.failing_dispose (calls Fixture.idle)
  = Normal (Some Sample.tree)
  /\ findAXNode Sample.tree 99%float = None
  /\ takeScreenshot Sample.failing_dispose 99%float Fixture.idle
     = (Normal None,
        with_calls Fixture.idle
          (calls Fixture.idle ++ [AccessibilitySnapshot true])).
Proof.
  split; [ reflexivity | ]. split; [ reflexivity | ].
  refine (node_not_found_no_screenshot Sample.failing_dispose 99%float
            (Some Sample.tree) Fixture.idle eq_refl eq_refl _).
  intros r Hr. injection Hr as <-. reflexivity.
Defined.

Lemma stop_without_path_sample :
  truthy_opt truthy_string (Some "") = false
  /\ file_calls
       (snd (stopTracingAndAppendOutput Fixture.env (Some "")
               Fixture.recording))
     = file_calls Fixture.recording.
Proof.
  split.
  - reflexivity.
  - exact (stop_without_path_writes_nothing Fixture.env (Some "")
             Fixture.recording eq_refl).
Defined.

Lemma stop_save_failure_sample :
  context_saveFile Sample.failing_save Sample.empty_array_bytes "t.json"
    (calls Fixture.recording ++ [TracingStop])
  = Throw Sample.boom
  /\ stopTracingAndAppendOutput Sample.failing_save (Some "t.json")
       Fixture.recording
     = (Normal tt,
        {| calls :=
             (calls Fixture.recording
              ++ [TracingStop; SaveFile Sample.empty_array_bytes "t.json";
                  stop_error_log Sample.boom])%list;
           isRunningPerformanceTrace := false;
           recordedTraces := recordedTraces Fixture.recording;
           responseLines :=
             (responseLines Fixture.recording
              ++ stop_error_lines Sample.boom)%list |}).
Proof.
  split.
  - reflexivity.
  - exact (stop_save_failure_skips_parse Sample.failing_save "t.json"
             Sample.empty_array_bytes Sample.boom Fixture.recording
             eq_refl eq_refl eq_refl eq_refl).
Defined.

Lemma stop_gz_sample :
  zlib_gzip Fixture.env Sample.empty_array_bytes
    (calls Fixture.recording ++ [TracingStop])
  = Normal Sample.empty_array_bytes
  /\ extends
       (calls Fixture.recording
        ++ [TracingStop; Gzip Sample.empty_array_bytes;
            SaveFile Sample.empty_array_bytes ("t.json" ++ ".gz")])
       (calls
          (snd (stopTracingAndAppendOutput Fixture.env
                  (Some ("t.json" ++ ".gz")) Fixture.recording))).
Proof.
  split.
  - reflexivity.
  - exact (stop_gz_saves_compressed Fixture.env "t.json" Sample.empty_array_bytes
             Sample.empty_array_bytes Fixture.recording eq_refl eq_refl).
Defined.

Lemma stop_records_before_summary_sample :
  formatTraceSummary Sample.failing_summary (parsedTrace Sample.stored_trace)
  = Throw Sample.boom
  /\ stopTracingAndAppendOutput Sample.failing_summary None
       Fixture.recording
     = (Normal tt,
        {| calls := (calls Sample.after_parse ++ [stop_error_log Sample.boom])%list;
           isRunningPerformanceTrace := false;
           recordedTraces :=
             (recordedTraces Fixture.recording ++ [Sample.stored_trace])%list;
           responseLines :=
             (responseLines Fixture.recording
              ++ "The performance trace has been stopped."
                 :: stop_error_lines Sample.boom)%list |}).
Proof.
  split.
  - reflexivity.
  - exact (stop_records_before_summary Sample.failing_summary
             (Some Sample.empty_array_bytes) Sample.stored_trace Sample.boom
             Fixture.recording Sample.after_parse eq_refl eq_refl eq_refl).
Defined.

Lemma startTrace_flag_after_sample :
  isRunningPerformanceTrace Fixture.idle = false
  /\ let (completion, w') :=
       startTrace Fixture.env Sample.auto_stop_params Fixture.idle in
     isRunningPerformanceTrace w'
     = match completion with
       | Normal _ => negb (autoStop Sample.auto_stop_params)
       | Throw _ => true
       end.
Proof.
  split.
  - reflexivity.
  - exact (startTrace_flag_after Fixture.env Sample.auto_stop_params Fixture.idle
             eq_refl).
Defined.

Lemma analyzeInsight_last_recording_sample :
  recordedTraces Sample.two_recordings
  = ([Sample.two_phase_recording] ++ [Sample.recording_A_B])%list
  /\ let (completion, w') :=
       analyzeInsight Fixture.env "A" "LCPBreakdown" Sample.two_recordings in
     match
       getInsightOutput Fixture.env Sample.recording_A_B "A" "LCPBreakdown"
     with
     | Normal (error text) =>
         completion = Normal tt
         /\ responseLines w'
            = (responseLines Sample.two_recordings ++ [text])%list
     | Normal (output text) =>
         completion = Normal tt
         /\ responseLines w'
            = (responseLines Sample.two_recordings
               ++ [text; lcp_hint_line])%list
     | Throw e =>
         completion = Throw e
         /\ responseLines w' = responseLines Sample.two_recordings
     end.
Proof.
  split.
  - reflexivity.
  - exact (analyzeInsight_uses_last_recording Fixture.env "A" "LCPBreakdown"
             [Sample.two_phase_recording] Sample.recording_A_B
             Sample.two_recordings eq_refl).
Defined.
